(** * Spotify Listening Insight Dashboard: enrichment and aggregation pipeline

    A shallow embedding of [app.py]: the Last.fm country resolver
    ([get_artist_country_lastfm]), the track fetcher ([fetch_tracks]), the
    load section of the script, the taste-diversity metric and the clustering
    step, together with the properties the specification states about them.

    Conventions of the embedding.
    - Python [str] is [string]; [str.lower] and the table
      [pycountry.countries] belong to the platform and are fields of [Env].
    - Python [float] is IEEE 754 binary64, modelled by [spec_float] with
      precision 53 and maximal exponent 1024.
    - An exception caught by [except Exception] is a value of [exn]; a
      computation that may raise returns a [result].
    - The Spotify client, the HTTP client and the Streamlit widgets are
      effects: a computation is a function on [state], which carries the
      outside world and the trace of the calls made so far. *)

From Stdlib Require Import ZArith List String Ascii Bool Lia QArith Qround.
From Stdlib Require Import SpecFloat DecimalString.
From stdpp Require Import gmap strings.
Import ListNotations.

Open Scope string_scope.
Open Scope list_scope.

#[local] Set Warnings "-clear-no-such-hyp".

(** ** Python values *)

(** An exception object: its class name and [str(e)]. *)
Record exn := Exception { exn_class : string; exn_msg : string }.

Inductive result (A : Type) : Type :=
| Ok (a : A)
| Raise (e : exn).
Arguments Ok {A} a.
Arguments Raise {A} e.

Definition AttributeError (msg : string) : exn := Exception "AttributeError" msg.
Definition IndexError (msg : string) : exn := Exception "IndexError" msg.
Definition ValueError (msg : string) : exn := Exception "ValueError" msg.
Definition OverflowError (msg : string) : exn := Exception "OverflowError" msg.

(** What [response.json()] can return. [JObj] lists the items of the parsed
    dict, each key once. *)
#[local] Unset Elimination Schemes.
Inductive json : Type :=
| JNull
| JBool (b : bool)
| JNum (z : Z)
| JStr (s : string)
| JArr (items : list json)
| JObj (members : list (string * json)).
#[local] Set Elimination Schemes.

Definition py_type_name (v : json) : string :=
  match v with
  | JNull => "NoneType"
  | JBool _ => "bool"
  | JNum _ => "int"
  | JStr _ => "str"
  | JArr _ => "list"
  | JObj _ => "dict"
  end.

Definition no_attribute (v : json) (attr : string) : exn :=
  AttributeError ("'" +:+ py_type_name v +:+ "' object has no attribute '" +:+ attr +:+ "'").

Fixpoint dict_lookup (key : string) (members : list (string * json)) : option json :=
  match members with
  | [] => None
  | (k, v) :: rest => if String.eqb k key then Some v else dict_lookup key rest
  end.

(** [v.get(key, default)]: only a dict has the method. *)
Definition py_get (v : json) (key : string) (default : json) : result json :=
  match v with
  | JObj members =>
      Ok (match dict_lookup key members with Some x => x | None => default end)
  | _ => Raise (no_attribute v "get")
  end.

(** [needle in hay] on strings. *)
Fixpoint contains (needle hay : string) : bool :=
  String.prefix needle hay ||
  match hay with
  | EmptyString => false
  | String _ rest => contains needle rest
  end.

(** [xs[0]] on a list. *)
Definition py_index0 {A : Type} (xs : list A) : result A :=
  match xs with
  | x :: _ => Ok x
  | [] => Raise (IndexError "list index out of range")
  end.

(** [str(n)] for an integer. *)
Definition str_of_Z (n : Z) : string := NilZero.string_of_int (Z.to_int n).

(** ASCII lower-casing, the behaviour of [str.lower] on ASCII text. *)
Definition ascii_lower_char (c : ascii) : ascii :=
  let n := nat_of_ascii c in
  if (65 <=? n)%nat && (n <=? 90)%nat then ascii_of_nat (n + 32) else c.

Fixpoint ascii_lower (s : string) : string :=
  match s with
  | EmptyString => EmptyString
  | String c rest => String (ascii_lower_char c) (ascii_lower rest)
  end.

(** ** Floating point (binary64) *)

Definition float := spec_float.
Definition prec : Z := 53.
Definition emax : Z := 1024.

(** [float(n)] for an integer [n], rounded to nearest even; exact up to
    2^53, which covers every duration, popularity and count of a table. *)
Definition float_of_Z (n : Z) : float := binary_normalize prec emax n 0 false.
Definition fadd : float -> float -> float := SFadd prec emax.
Definition fsub : float -> float -> float := SFsub prec emax.
Definition fdiv : float -> float -> float := SFdiv prec emax.

(** The rational number a finite float stands for. *)
Definition float_value (x : float) : option Q :=
  match x with
  | S754_zero _ => Some 0%Q
  | S754_finite s m e =>
      let mag := match e with
                 | Zneg k => Qmake (Zpos m) (Pos.pow 2 k)
                 | _ => inject_Z (Zpos m * 2 ^ e)
                 end in
      Some (if s then Qopp mag else mag)
  | _ => None
  end.

(** [int(x)]: truncation toward zero; [nan] and the infinities raise. *)
Definition py_int (x : float) : result Z :=
  match x with
  | S754_zero _ => Ok 0%Z
  | S754_finite s m e =>
      let mag := match e with
                 | Zneg k => (Zpos m / Zpos (Pos.pow 2 k))%Z
                 | _ => (Zpos m * 2 ^ e)%Z
                 end in
      Ok (if s then (- mag)%Z else mag)
  | S754_infinity _ => Raise (OverflowError "cannot convert float infinity to integer")
  | S754_nan => Raise (ValueError "cannot convert float NaN to integer")
  end.

(** Nearest integer to [n / d], ties to even, for [0 <= n] and [0 < d]. *)
Definition div_half_even (n d : Z) : Z :=
  let q := (n / d)%Z in
  let r := (n mod d)%Z in
  match (2 * r ?= d)%Z with
  | Lt => q
  | Gt => (q + 1)%Z
  | Eq => if Z.even q then q else (q + 1)%Z
  end.

(** [round(x, 2)]: the decimal with two places nearest to the exact value of
    [x] (ties to even), converted back to the nearest float. A float without
    fractional bits is returned as it is. *)
Definition py_round2 (x : float) : float :=
  match x with
  | S754_finite s m (Zneg k) =>
      let hundredths := div_half_even (Zpos m * 100) (Zpos (Pos.pow 2 k)) in
      match hundredths with
      | Zpos h => SFdiv prec emax (S754_finite s h 0) (S754_finite false 100 0)
      | _ => S754_zero s
      end
  | _ => x
  end.

(** ** Records of the Spotify Web API and rows of the table *)

Record artist_ref := { artist_id : string; artist_name : string }.
Record album_ref := { album_name : string; release_date : string }.

(** One element of [top_tracks["items"]]. *)
Record track := {
  name : string;
  artists : list artist_ref;
  album : album_ref;
  duration_ms : Z;
  popularity : Z;
  explicit : bool
}.

(** The answer of [sp.artist]; [genres] is [None] when the key is absent. *)
Record artist_info := { genres : option (list string) }.

(** One row of the DataFrame built by [fetch_tracks]. *)
Record row := {
  Track_Name : string;
  Artist : string;
  Album : string;
  Genre : string;
  Language : string;
  Duration_min : float;
  Popularity : Z;
  Explicit : string;
  Release_Year : string;
  Country : string
}.

(** A DataFrame is the list of its rows; [pd.DataFrame()] is the empty list. *)
Definition DataFrame := list row.

Definition df_empty (df : DataFrame) : bool :=
  match df with [] => true | _ => false end.

(** ** The platform *)

(** Everything the script calls but does not define. The three network
    operations read and change the outside world. *)
Record Env := {
  World : Type;
  sp_current_user_top_tracks : Z -> string -> World -> result (list track) * World;
  sp_artist : string -> World -> result artist_info * World;
  requests_get_json : string -> World -> result json * World;
  (** [langdetect.detect], deterministic once [DetectorFactory.seed = 0] *)
  detect : string -> result string;
  (** [str.lower] *)
  lower : string -> string;
  (** [[c.name for c in pycountry.countries]] *)
  countries : list string;
  LAST_CLIENT_ID : string;
  (** [StandardScaler().fit_transform] *)
  StandardScaler_fit_transform : list (float * Z) -> list (float * float);
  (** [KMeans(n_clusters, random_state).fit(X).labels_] *)
  KMeans_fit : nat -> Z -> list (float * float) -> result (list Z)
}.

(** What the script does to the outside, in order. *)
Inductive event : Type :=
| CallTopTracks (limit : Z) (time_range : string)
| CallArtist (id : string)
| CallGet (url : string)
| StError (msg : string)
| StWarning (msg : string).

Section Pipeline.

Variable E : Env.

Record state := { world : World E; trace : list event }.

Definition log (ev : event) (w : World E) (s : state) : state :=
  {| world := w; trace := trace s ++ [ev] |}.

(** ** Computations *)

Definition M (A : Type) : Type := state -> result A * state.

Definition ret {A : Type} (a : A) : M A := fun s => (Ok a, s).

Definition bind {A B : Type} (c : M A) (k : A -> M B) : M B :=
  fun s =>
    match c s with
    | (Ok a, s') => k a s'
    | (Raise e, s') => (Raise e, s')
    end.

Definition lift {A : Type} (r : result A) : M A := fun s => (r, s).

(** [try: body / except Exception as e: handler e] *)
Definition try_except {A : Type} (body : M A) (handler : exn -> M A) : M A :=
  fun s =>
    match body s with
    | (Ok a, s') => (Ok a, s')
    | (Raise e, s') => handler e s'
    end.

Notation "x <- c ;; k" := (bind c (fun x => k))
  (at level 100, c at next level, right associativity).

Definition call_top_tracks (limit : Z) (time_range : string) : M (list track) :=
  fun s =>
    let (r, w) := sp_current_user_top_tracks E limit time_range (world s) in
    (r, log (CallTopTracks limit time_range) w s).

Definition call_artist (id : string) : M artist_info :=
  fun s =>
    let (r, w) := sp_artist E id (world s) in
    (r, log (CallArtist id) w s).

Definition call_get (url : string) : M json :=
  fun s =>
    let (r, w) := requests_get_json E url (world s) in
    (r, log (CallGet url) w s).

Definition st_error (msg : string) : M unit :=
  fun s => (Ok tt, log (StError msg) (world s) s).

Definition st_warning (msg : string) : M unit :=
  fun s => (Ok tt, log (StWarning msg) (world s) s).

(** ** 5. Helper: artist country from Last.fm *)

Definition lastfm_url (artist_name : string) : string :=
  "http://ws.audioscrobbler.com/2.0/?method=artist.getinfo"
  +:+ "&artist=" +:+ artist_name +:+ "&api_key=" +:+ LAST_CLIENT_ID E +:+ "&format=json".

(** [res.get("artist", {}).get("bio", {}).get("content", "")] *)
Definition biography (res : json) : result json :=
  match py_get res "artist" (JObj []) with
  | Raise e => Raise e
  | Ok artist =>
      match py_get artist "bio" (JObj []) with
      | Raise e => Raise e
      | Ok bio => py_get bio "content" (JStr "")
      end
  end.

(** [bio.lower()] *)
Definition py_lower (v : json) : result string :=
  match v with
  | JStr s => Ok (lower E s)
  | _ => Raise (no_attribute v "lower")
  end.

(** The [for country in ...] loop: the test [country.lower() in bio.lower()]
    is evaluated once per country, in the order of the list. *)
Fixpoint scan_countries (bio : json) (cs : list string) : result string :=
  match cs with
  | [] => Ok "Unknown"
  | country :: rest =>
      match py_lower bio with
      | Raise e => Raise e
      | Ok text =>
          if contains (lower E country) text then Ok country
          else scan_countries bio rest
      end
  end.

Definition get_artist_country_lastfm (artist_name : string) : M string :=
  try_except
    (res <- call_get (lastfm_url artist_name) ;;
     bio <- lift (biography res) ;;
     lift (scan_countries bio (countries E)))
    (fun _ => ret "Unknown").

(** ** 8. Fetch top tracks *)

(** The body of the [for item in top_tracks["items"]] loop, up to the row
    handed to [rows.append]. The artist lookup has no handler of its own;
    language detection has one; the country helper catches everything. *)
Definition enrich (item : track) : M row :=
  first_artist <- lift (py_index0 (artists item)) ;;
  info <- call_artist (artist_id first_artist) ;;
  let genres := match genres info with Some gs => gs | None => [] end in
  let language :=
    match detect E (name item +:+ " " +:+ artist_name first_artist) with
    | Ok code => code
    | Raise _ => "unknown"
    end in
  country <- get_artist_country_lastfm (artist_name first_artist) ;;
  ret {| Track_Name := name item;
         Artist := artist_name first_artist;
         Album := album_name (album item);
         Genre := match genres with g :: _ => g | [] => "Unknown" end;
         Language := language;
         Duration_min := py_round2 (fdiv (float_of_Z (duration_ms item)) (float_of_Z 60000));
         Popularity := popularity item;
         Explicit := if explicit item then "Explicit" else "Clean";
         Release_Year := String.substring 0 4 (release_date (album item));
         Country := country |}.

(** The loop itself, [rows] being the list built so far. *)
Fixpoint enrich_loop (items : list track) (rows : list row) : M (list row) :=
  match items with
  | [] => ret rows
  | item :: rest => r <- enrich item ;; enrich_loop rest (rows ++ [r])
  end.

Definition fetch_tracks (time_range : string) : M DataFrame :=
  try_except
    (items <- call_top_tracks 20 time_range ;;
     match items with
     | [] => ret []
     | _ => enrich_loop items []
     end)
    (fun e => _ <- st_error ("Failed to fetch data: " +:+ exn_msg e) ;; ret []).

(** ** 9. Load data *)

Record loaded := {
  df_short : DataFrame;
  df_medium : DataFrame;
  df_long : DataFrame;
  df : DataFrame
}.

Definition load_data (time_range : string) : M loaded :=
  short <- fetch_tracks "short_term" ;;
  medium <- fetch_tracks "medium_term" ;;
  long <- fetch_tracks "long_term" ;;
  selected <- fetch_tracks time_range ;;
  ret {| df_short := short; df_medium := medium; df_long := long; df := selected |}.

(** How a run of the script ends: it reaches its last line, [st.stop()]
    ends it, or an exception nobody catches does. *)
Inductive outcome : Type :=
| Completed
| Stopped
| Uncaught (e : exn).

(** Sections 9 and 10 of the script; [tabs] stands for everything below the
    [if df.empty] test. *)
Definition dashboard (time_range : string) (tabs : loaded -> M unit) : state -> outcome * state :=
  fun s =>
    match load_data time_range s with
    | (Raise e, s1) => (Uncaught e, s1)
    | (Ok data, s1) =>
        if df_empty (df data) then
          let (_, s2) := st_warning "No data found." s1 in (Stopped, s2)
        else
          match tabs data s1 with
          | (Ok _, s2) => (Completed, s2)
          | (Raise e, s2) => (Uncaught e, s2)
          end
    end.

(** ** 10c. Clustering *)

(** [df["Cluster"] = labels]: one label per row, or pandas refuses. *)
Definition set_cluster (df : DataFrame) (labels : list Z) : result (list (row * Z)) :=
  if (length labels =? length df)%nat then Ok (combine df labels)
  else Raise (ValueError
    ("Length of values (" +:+ str_of_Z (Z.of_nat (length labels)) +:+
     ") does not match length of index (" +:+ str_of_Z (Z.of_nat (length df)) +:+ ")")).

Definition clustering (df : DataFrame) : result (list (row * Z)) :=
  let feat := map (fun r => (Duration_min r, Popularity r)) df in
  let scaled := StandardScaler_fit_transform E feat in
  match KMeans_fit E 3 42 scaled with
  | Raise e => Raise e
  | Ok labels => set_cluster df labels
  end.

End Pipeline.

Arguments world {E} s.
Arguments trace {E} s.
Arguments ret {E A} a s.
Arguments bind {E A B} c k s.
Arguments lift {E A} r s.
Arguments try_except {E A} body handler s.

(** ** 10c. Taste diversity score *)

(** [Series.unique()]: the distinct values, in order of first appearance. *)
Fixpoint unique_from (seen xs : list string) : list string :=
  match xs with
  | [] => []
  | x :: rest =>
      if existsb (String.eqb x) seen then unique_from seen rest
      else x :: unique_from (x :: seen) rest
  end.

Definition unique (xs : list string) : list string := unique_from [] xs.

(** [Series.mean()] of an integer column: sum and count as floats, then one
    division; [nan] (zero divided by zero) on an empty column. *)
Definition mean (xs : list Z) : float :=
  fdiv (float_of_Z (fold_right Z.add 0%Z xs)) (float_of_Z (Z.of_nat (length xs))).

Definition diversity (df : DataFrame) : float :=
  fadd
    (float_of_Z
       (Z.of_nat (length (unique (map Genre df))) * 2 +
        Z.of_nat (length (unique (map Language df))) * 2 +
        Z.of_nat (length (unique (map Release_Year df)))))
    (fsub (float_of_Z 100) (mean (map Popularity df))).

(** The text given to [st.metric]: [f"{int(diversity)} / 100"]. *)
Definition diversity_metric (df : DataFrame) : result string :=
  match py_int (diversity df) with
  | Ok n => Ok (str_of_Z n +:+ " / 100")
  | Raise e => Raise e
  end.

(** ** The contract of scikit-learn's KMeans *)

(** The error [KMeans.fit] raises when it is given fewer samples than
    clusters. *)
Definition n_samples_error (n_samples n_clusters : nat) : exn :=
  ValueError ("n_samples=" +:+ str_of_Z (Z.of_nat n_samples) +:+
              " should be >= n_clusters=" +:+ str_of_Z (Z.of_nat n_clusters) +:+ ".").

(** [fit] refuses fewer samples than clusters, and otherwise labels every
    sample with a cluster index below [n_clusters]. *)
Definition kmeans_contract (fit : nat -> Z -> list (float * float) -> result (list Z)) : Prop :=
  forall n_clusters random_state X,
    0 < n_clusters ->
    (length X < n_clusters ->
     fit n_clusters random_state X = Raise (n_samples_error (length X) n_clusters)) /\
    (n_clusters <= length X ->
     exists labels,
       fit n_clusters random_state X = Ok labels /\
       length labels = length X /\
       Forall (fun l => (0 <= l < Z.of_nat n_clusters)%Z) labels).

(** [fit_transform] returns one scaled sample per sample. *)
Definition scaler_contract (scale : list (float * Z) -> list (float * float)) : Prop :=
  forall X, length (scale X) = length X.

(** ** A small platform to run the definitions on *)

Module Demo.

Definition artist_one : artist_ref := {| artist_id := "a1"; artist_name := "Artist One" |}.
Definition artist_two : artist_ref := {| artist_id := "a2"; artist_name := "Artist Two" |}.
Definition artist_three : artist_ref := {| artist_id := "a3"; artist_name := "Artist Three" |}.
Definition artist_gone : artist_ref := {| artist_id := "gone"; artist_name := "Artist Gone" |}.

Definition song_one : track :=
  {| name := "Song One"; artists := [artist_one; artist_two];
     album := {| album_name := "First Album"; release_date := "2021-05-06" |};
     duration_ms := 215000; popularity := 60; explicit := false |}.

Definition song_two : track :=
  {| name := "12345"; artists := [artist_two];
     album := {| album_name := "Second Album"; release_date := "1999" |};
     duration_ms := 200000; popularity := 35; explicit := true |}.

Definition song_three : track :=
  {| name := "Song Three"; artists := [artist_gone];
     album := {| album_name := "Third Album"; release_date := "2010-01-01" |};
     duration_ms := 180000; popularity := 10; explicit := false |}.

Definition song_four : track :=
  {| name := "Song Four"; artists := [artist_three];
     album := {| album_name := "Fourth Album"; release_date := "2005-11" |};
     duration_ms := 61000; popularity := 80; explicit := false |}.

(** The world is the number of network calls made so far. *)
Definition top_tracks (limit : Z) (time_range : string) (w : nat)
  : result (list track) * nat :=
  (if String.eqb time_range "short_term" then Ok [song_one; song_two]
   else if String.eqb time_range "medium_term" then Ok []
   else if String.eqb time_range "long_term" then Ok [song_one; song_three; song_two]
   else if String.eqb time_range "all" then Ok [song_four; song_two; song_one]
   else Raise (Exception "SpotifyException" "http status: 401, The access token expired"),
   S w).

Definition artist (id : string) (w : nat) : result artist_info * nat :=
  (if String.eqb id "a1" then Ok {| genres := Some ["pop"; "dance pop"] |}
   else if String.eqb id "a2" then Ok {| genres := Some [] |}
   else if String.eqb id "a3" then Ok {| genres := None |}
   else Raise (Exception "SpotifyException" "http status: 404, Resource not found"),
   S w).

Definition get_json (url : string) (w : nat) : result json * nat :=
  (if contains "artist=Artist One&" url then
     Ok (JObj [("artist",
                JObj [("name", JStr "Artist One");
                      ("bio", JObj [("content",
                                     JStr "Born in BRAZIL, the singer later moved to Chile.")])])])
   else if contains "artist=Artist Two&" url then
     Ok (JObj [("error", JNum 6); ("message", JStr "The artist you supplied could not be found")])
   else Raise (Exception "ConnectionError" "Max retries exceeded"),
   S w).

Definition detect_language (text : string) : result string :=
  if contains "Song" text then Ok "en"
  else Raise (Exception "LangDetectException" "No features in text.").

Definition scale (X : list (float * Z)) : list (float * float) :=
  map (fun x => (fst x, float_of_Z (snd x))) X.

Definition fit (n_clusters : nat) (random_state : Z) (X : list (float * float))
  : result (list Z) :=
  if (length X <? n_clusters)%nat then Raise (n_samples_error (length X) n_clusters)
  else Ok (map (fun i => Z.of_nat (i mod n_clusters)) (seq 0 (length X))).

Definition env : Env :=
  {| World := nat;
     sp_current_user_top_tracks := top_tracks;
     sp_artist := artist;
     requests_get_json := get_json;
     detect := detect_language;
     lower := ascii_lower;
     countries := ["Chile"; "Brazil"; "France"];
     LAST_CLIENT_ID := "0123456789abcdef";
     StandardScaler_fit_transform := scale;
     KMeans_fit := fit |}.

Definition start : state env := Build_state env 0%nat [].

(** Tables with five genres, three languages and four release years. *)
Definition sample_row (genre language year : string) (pop : Z) : row :=
  {| Track_Name := "t"; Artist := "a"; Album := "b"; Genre := genre;
     Language := language;
     Duration_min := py_round2 (fdiv (float_of_Z 215000) (float_of_Z 60000));
     Popularity := pop;
     Explicit := "Clean"; Release_Year := year; Country := "Unknown" |}.

Definition profiles : list (string * string * string) :=
  [("pop", "en", "2019"); ("rock", "es", "2020"); ("jazz", "ko", "2021");
   ("folk", "en", "2022"); ("soul", "es", "2019");
   ("pop", "en", "2019"); ("rock", "es", "2020"); ("jazz", "ko", "2021");
   ("folk", "en", "2022"); ("soul", "es", "2019")].

(** One row per popularity score given, ten at most. *)
Definition sample_table (pops : list Z) : DataFrame :=
  map (fun x => sample_row (fst (fst (fst x))) (snd (fst (fst x))) (snd (fst x)) (snd x))
      (combine profiles pops).

End Demo.

(** ** Vocabulary of the statements *)

(** [needle] occurs as a substring of [hay]. *)
Definition occurs_in (needle hay : string) : Prop :=
  exists before after, hay = before +:+ needle +:+ after.

(** Strict access along a path of keys: [None] as soon as a value on the way
    is not a dict or lacks the key. *)
Fixpoint json_path (keys : list string) (v : json) : option json :=
  match keys with
  | [] => Some v
  | key :: rest =>
      match v with
      | JObj members =>
          match dict_lookup key members with
          | Some x => json_path rest x
          | None => None
          end
      | _ => None
      end
  end.

(** The biography fetch failed: the request raised (network error, body that
    is not JSON), or the answer holds no text at [artist.bio.content]
    (malformed response, missing field). *)
Definition bio_fetch_failed (r : result json) : Prop :=
  match r with
  | Raise _ => True
  | Ok res => forall text, json_path ["artist"; "bio"; "content"] res <> Some (JStr text)
  end.

(** The country a given outcome of the HTTP request leads to. *)
Definition country_of_response (E : Env) (r : result json) : string :=
  match r with
  | Raise _ => "Unknown"
  | Ok res =>
      match biography res with
      | Raise _ => "Unknown"
      | Ok bio =>
          match scan_countries E bio (countries E) with
          | Ok country => country
          | Raise _ => "Unknown"
          end
      end
  end.

(** The time ranges of the top-tracks requests in a trace, in order. *)
Fixpoint top_tracks_requests (evs : list event) : list string :=
  match evs with
  | [] => []
  | CallTopTracks _ time_range :: rest => time_range :: top_tracks_requests rest
  | _ :: rest => top_tracks_requests rest
  end.

(** The fields of a row that are copied from the raw track. *)
Definition row_of_track (item : track) (r : row) : Prop :=
  Track_Name r = name item /\
  Album r = album_name (album item) /\
  Duration_min r = py_round2 (fdiv (float_of_Z (duration_ms item)) (float_of_Z 60000)) /\
  Popularity r = popularity item /\
  Explicit r = (if explicit item then "Explicit" else "Clean") /\
  Release_Year r = String.substring 0 4 (release_date (album item)).

(** [item["artists"][0]] followed by [sp.artist]: the genre step. *)
Definition genre_step (E : Env) (item : track) : M E (artist_ref * artist_info) :=
  bind (lift (py_index0 (artists item)))
       (fun first_artist =>
          bind (call_artist E (artist_id first_artist))
               (fun info => ret (first_artist, info))).

(** Truncation of a rational toward zero. *)
Definition Qtruncate (q : Q) : Z :=
  if Qle_bool 0 q then Qfloor q else Qceiling q.

(** The country matched by the scan of a biography: the first name of the
    list, in the order of the list, that occurs in the text once both are
    lower-cased; ["Unknown"] when no name of the list occurs. *)
Definition first_listed_match (E : Env) (bio country : string) : Prop :=
  (exists before after,
     countries E = before ++ country :: after /\
     occurs_in (lower E country) (lower E bio) /\
     forall c, In c before -> ~ occurs_in (lower E c) (lower E bio))
  \/ (country = "Unknown" /\
      forall c, In c (countries E) -> ~ occurs_in (lower E c) (lower E bio)).

(** [s'] comes after [s] without a new top-tracks request in between. *)
Definition quiet_step {E : Env} (s s' : state E) : Prop :=
  exists evs, trace s' = trace s ++ evs /\ top_tracks_requests evs = [].

(** The number of distinct values of a column. *)
Definition distinct (xs : list string) : nat := size (list_to_set xs : gset string).

(** * The rest of the script *)

(** ** More Python values *)

(** [str(KeyError(key))] shows the key between quotes. *)
Definition KeyError (key : string) : exn := Exception "KeyError" ("'" +:+ key +:+ "'").

(** [s.replace(old, new)] for a non-empty [old]: every occurrence, from the
    left, occurrences not overlapping. [skip] counts the characters of the
    occurrence just replaced that are still to be passed over. *)
Fixpoint replace_from (skip : nat) (old new s : string) : string :=
  match s with
  | EmptyString => EmptyString
  | String c rest =>
      match skip with
      | S k => replace_from k old new rest
      | O =>
          if String.prefix old s
          then new +:+ replace_from (String.length old - 1) old new rest
          else String c (replace_from 0 old new rest)
      end
  end.

Definition py_replace (old new s : string) : string := replace_from 0 old new s.

(** [dataset[name]]: a DataFrame made by [pd.DataFrame()] has no column. *)
Definition column {A : Type} (name : string) (field : row -> A) (dataset : DataFrame)
  : result (list A) :=
  match dataset with
  | [] => Raise (KeyError name)
  | _ => Ok (map field dataset)
  end.

(** ** 10d. Hidden gems *)

Definition is_hidden_gem (r : row) : bool :=
  (Popularity r <? 40)%Z && String.eqb (Explicit r) "Clean"
  && negb (String.eqb (Genre r) "Unknown").

(** The boolean mask is applied to the table that carries the Cluster
    column. *)
Definition hidden_gems (table : list (row * Z)) : list (row * Z) :=
  List.filter (fun x => is_hidden_gem (fst x)) table.

(** ** The rest of the platform *)

(** [sp.current_user()]: the id and the urls of the images. *)
Record user_profile := { user_id : string; user_images : list string }.

(** [sp.user_playlist_create(...)]: the id and [external_urls.spotify]. *)
Record playlist := { pl_id : string; pl_spotify_url : string }.

(** The two keys the script keeps in [st.session_state]. *)
Record session_state := { playlist_created : bool; playlist_url : option string }.

(** The other operations of the Spotify client, over the same outside world,
    and the button: [sp_search] answers the uris of [res["tracks"]["items"]],
    [st_button] tells whether the user has clicked. *)
Record Client (E : Env) := {
  sp_current_user : World E -> result user_profile * World E;
  sp_search : string -> World E -> result (list string) * World E;
  sp_user_playlist_create :
    string -> string -> bool -> string -> World E -> result playlist * World E;
  sp_playlist_add_items : string -> list string -> World E -> result unit * World E;
  st_button : string -> World E -> bool
}.
Arguments sp_current_user {E} c w.
Arguments sp_search {E} c q w.
Arguments sp_user_playlist_create {E} c user name public description w.
Arguments sp_playlist_add_items {E} c playlist_id items w.
Arguments st_button {E} c label w.

(** What a whole run does to the outside, in order. Charts, headers and
    layout are not recorded. *)
Inductive action : Type :=
| Core (ev : event)
| CallCurrentUser
| CallSearch (q : string)
| CallPlaylistCreate (user name : string) (public : bool) (description : string)
| CallPlaylistAddItems (playlist_id : string) (items : list string)
| StProfileImage (src : string)
| StDataframe (table : list (row * option Z))
| StMetric (label value : string)
| StButton (label : string)
| StPlayer (src : string).

(** How a step of the script hands over: to the next line, to [st.stop()],
    or to an exception. *)
Inductive control (A : Type) : Type :=
| Next (a : A)
| Halt
| Fail (e : exn).
Arguments Next {A} a.
Arguments Halt {A}.
Arguments Fail {A} e.

Definition of_result {A : Type} (r : result A) : control A :=
  match r with
  | Ok a => Next a
  | Raise e => Fail e
  end.

Section App.

Variable E : Env.
Variable C : Client E.

(** The outside world, what was done to it, and the session state ([None]
    before the keys are set). *)
Record app_state := {
  app_world : World E;
  app_log : list action;
  session : option session_state
}.

Definition record_action (act : action) (w : World E) (st : app_state) : app_state :=
  {| app_world := w; app_log := app_log st ++ [act]; session := session st |}.

Definition Script (A : Type) : Type := app_state -> control A * app_state.

Definition next {A : Type} (a : A) : Script A := fun st => (Next a, st).

Definition st_stop {A : Type} : Script A := fun st => (Halt, st).

Definition and_then {A B : Type} (c : Script A) (k : A -> Script B) : Script B :=
  fun st =>
    match c st with
    | (Next a, st') => k a st'
    | (Halt, st') => (Halt, st')
    | (Fail e, st') => (Fail e, st')
    end.

Notation "x <- c ;; k" := (and_then c (fun x => k))
  (at level 100, c at next level, right associativity).

Definition pure_step {A : Type} (r : result A) : Script A := fun st => (of_result r, st).

Definition show (act : action) : Script unit :=
  fun st => (Next tt, record_action act (app_world st) st).

(** A computation of the fetcher, run on the world of the application; its
    events join the log. *)
Definition run_core {A : Type} (c : M E A) : Script A :=
  fun st =>
    let (r, s) := c (Build_state E (app_world st) []) in
    (of_result r,
     {| app_world := world s;
        app_log := app_log st ++ map Core (trace s);
        session := session st |}).

Definition call_current_user : Script user_profile :=
  fun st =>
    let (r, w) := sp_current_user C (app_world st) in
    (of_result r, record_action CallCurrentUser w st).

Definition call_search (q : string) : Script (list string) :=
  fun st =>
    let (r, w) := sp_search C q (app_world st) in
    (of_result r, record_action (CallSearch q) w st).

Definition call_playlist_create (user name : string) (public : bool) (description : string)
  : Script playlist :=
  fun st =>
    let (r, w) := sp_user_playlist_create C user name public description (app_world st) in
    (of_result r, record_action (CallPlaylistCreate user name public description) w st).

Definition call_playlist_add_items (playlist_id : string) (items : list string)
  : Script unit :=
  fun st =>
    let (r, w) := sp_playlist_add_items C playlist_id items (app_world st) in
    (of_result r, record_action (CallPlaylistAddItems playlist_id items) w st).

Definition button (label : string) : Script bool :=
  fun st => (Next (st_button C label (app_world st)),
             record_action (StButton label) (app_world st) st).

Definition set_session (ss : session_state) : Script unit :=
  fun st => (Next tt,
             {| app_world := app_world st; app_log := app_log st; session := Some ss |}).

(** Reading a key of [st.session_state] that was never set raises. *)
Definition get_session : Script session_state :=
  fun st =>
    match session st with
    | Some ss => (Next ss, st)
    | None => (Fail (AttributeError "st.session_state has no attribute playlist_created"), st)
    end.

(** ** 4. Authenticate and load user *)

Definition authenticate : Script user_profile :=
  fun st =>
    match call_current_user st with
    | (Next user, st1) =>
        (_ <- show (StProfileImage
                      (match user_images user with url :: _ => url | [] => "" end)) ;;
         next user) st1
    | (Fail e, st1) =>
        (_ <- show (Core (StError ("Authentication failed: " +:+ exn_msg e))) ;;
         st_stop) st1
    | (Halt, st1) => (Halt, st1)
    end.

(** ** 10b. Listening evolution by genre *)

(** The loop over the three windows reads the Genre column of each; the
    bars themselves are presentation. *)
Definition genre_evolution (data : loaded) : Script unit :=
  _ <- pure_step (column "Genre" Genre (df_short data)) ;;
  _ <- pure_step (column "Genre" Genre (df_medium data)) ;;
  _ <- pure_step (column "Genre" Genre (df_long data)) ;;
  next tt.

(** ** 10c. Playlist builder *)

(** The [for _, r in df.iterrows()] loop, [track_uris] being the list built
    so far. *)
Fixpoint search_uris (rows : list row) (track_uris : list string) : Script (list string) :=
  match rows with
  | [] => next track_uris
  | r :: rest =>
      items <- call_search (Track_Name r +:+ " " +:+ Artist r) ;;
      search_uris rest (match items with
                        | uri :: _ => track_uris ++ [uri]
                        | [] => track_uris
                        end)
  end.

Definition embed_url (url : string) : string :=
  py_replace "https://open.spotify.com/playlist/"
             "https://open.spotify.com/embed/playlist/" url.

Definition playlist_builder (user : user_profile) (df : DataFrame) : Script unit :=
  _ <- (fun st =>
          match session st with
          | None => set_session {| playlist_created := false; playlist_url := None |} st
          | Some _ => (Next tt, st)
          end) ;;
  ss <- get_session ;;
  _ <- (if playlist_created ss then next tt
        else
          track_uris <- search_uris df [] ;;
          match track_uris with
          | [] => next tt
          | _ :: _ =>
              clicked <- button "+ Create Spotify Playlist" ;;
              if clicked then
                created <- call_playlist_create (user_id user) "My Favorite Tracks" false
                             "Auto-generated from Spotify Insight Dashboard" ;;
                _ <- call_playlist_add_items (pl_id created) track_uris ;;
                set_session {| playlist_created := true;
                               playlist_url := Some (pl_spotify_url created) |}
              else next tt
          end) ;;
  ss <- get_session ;;
  match playlist_created ss, playlist_url ss with
  | true, Some (String c rest) => show (StPlayer (embed_url (String c rest) +:+ "?theme=0"))
  | _, _ => next tt
  end.

(** ** 10. The tabs *)

Definition overview (df : DataFrame) : Script unit :=
  show (StDataframe (map (fun r => (r, None)) df)).

Definition taste_diversity (df : DataFrame) : Script unit :=
  text <- pure_step (diversity_metric df) ;;
  show (StMetric "Your Diversity Score" text).

Definition hidden_gems_tab (table : list (row * Z)) : Script unit :=
  show (StDataframe (map (fun x => (fst x, Some (snd x))) (hidden_gems table))).

Definition tabs (user : user_profile) (data : loaded) : Script unit :=
  _ <- overview (df data) ;;
  _ <- genre_evolution data ;;
  _ <- taste_diversity (df data) ;;
  _ <- playlist_builder user (df data) ;;
  table <- pure_step (clustering E (df data)) ;;
  hidden_gems_tab table.

(** ** The whole script *)

Definition app (time_range : string) : app_state -> outcome * app_state :=
  fun st =>
    match (user <- authenticate ;;
           data <- run_core (load_data E time_range) ;;
           if df_empty (df data) then
             _ <- run_core (st_warning E "No data found.") ;; st_stop
           else tabs user data) st with
    | (Next _, st') => (Completed, st')
    | (Halt, st') => (Stopped, st')
    | (Fail e, st') => (Uncaught e, st')
    end.

End App.

Arguments app_world {E} _.
Arguments app_log {E} _.
Arguments session {E} _.
Arguments next {E A} a _.
Arguments st_stop {E A} _.
Arguments and_then {E A B} c k _.
Arguments pure_step {E A} r _.
Arguments show {E} act _.
Arguments run_core {E A} c _.
Arguments set_session {E} ss _.
Arguments get_session {E} _.
Arguments genre_evolution {E} data _.
Arguments overview {E} df _.
Arguments taste_diversity {E} df _.
Arguments hidden_gems_tab {E} table _.

(** The queries of the searches in a log, in order. *)
Fixpoint searches (log : list action) : list string :=
  match log with
  | [] => []
  | CallSearch q :: rest => q :: searches rest
  | _ :: rest => searches rest
  end.

(** The playlists created in a log: user and name of each, in order. *)
Fixpoint playlists_created (log : list action) : list (string * string) :=
  match log with
  | [] => []
  | CallPlaylistCreate user name _ _ :: rest => (user, name) :: playlists_created rest
  | _ :: rest => playlists_created rest
  end.

(** What every row of a fetched table satisfies. *)
Definition well_formed_row (E : Env) (r : row) : Prop :=
  (Explicit r = "Explicit" \/ Explicit r = "Clean") /\
  String.length (Release_Year r) <= 4 /\
  (Country r = "Unknown" \/ In (Country r) (countries E)).

(** The tables given to [st.dataframe] in a log, in order. *)
Fixpoint tables_shown (log : list action) : list (list (row * option Z)) :=
  match log with
  | [] => []
  | StDataframe table :: rest => table :: tables_shown rest
  | _ :: rest => tables_shown rest
  end.

(** The actions of the playlist builder. *)
Definition builder_action (a : action) : Prop :=
  match a with
  | CallSearch _ | CallPlaylistCreate _ _ _ _ | CallPlaylistAddItems _ _
  | StButton _ | StPlayer _ => True
  | _ => False
  end.

(** The text searched for a row. *)
Definition query (r : row) : string := Track_Name r +:+ " " +:+ Artist r.

(** No playlist is recorded in the session yet. *)
Definition playlist_pending {E : Env} (st : app_state E) : Prop :=
  match session st with
  | None => True
  | Some ss => playlist_created ss = false
  end.

(** The session state once the two keys are set. *)
Definition initialised {E : Env} (st : app_state E) : app_state E :=
  {| app_world := app_world st;
     app_log := app_log st;
     session := Some (match session st with
                      | Some ss => ss
                      | None => {| playlist_created := false; playlist_url := None |}
                      end) |}.

(** The two network calls enrichment makes for a track with a first artist. *)
Definition calls_of_track (E : Env) (item : track) : list event :=
  match artists item with
  | first_artist :: _ =>
      [CallArtist (artist_id first_artist);
       CallGet (lastfm_url E (artist_name first_artist))]
  | [] => []
  end.

(** A second platform for the rest of the script, over [Demo.env]. *)
Module DemoApp.

Definition listener : user_profile :=
  {| user_id := "listener"; user_images := [] |}.

(** The token has expired when the world has reached 1000 calls. *)
Definition current_user (w : nat) : result user_profile * nat :=
  (if (1000 <=? w)%nat
   then Raise (Exception "SpotifyException" "http status: 401, The access token expired")
   else Ok listener,
   S w).

Definition search (q : string) (w : nat) : result (list string) * nat :=
  (if contains "12345" q then Ok []
   else if contains "Four" q then Raise (Exception "SpotifyException" "http status: 429")
   else Ok ["spotify:track:" +:+ q; "spotify:track:other"],
   S w).

Definition create (user name : string) (public : bool) (description : string) (w : nat)
  : result playlist * nat :=
  (Ok {| pl_id := "pl1"; pl_spotify_url := "https://open.spotify.com/playlist/pl1" |}, S w).

Definition add_items (add_ok : bool) (playlist_id : string) (items : list string) (w : nat)
  : result unit * nat :=
  (if add_ok then Ok tt else Raise (Exception "SpotifyException" "http status: 502"), S w).

Definition client (clicked add_ok : bool) : Client Demo.env :=
  Build_Client Demo.env current_user search create (add_items add_ok)
    (fun _ _ => clicked).

Definition fresh (w : nat) : app_state Demo.env := Build_app_state Demo.env w [] None.

(** A local file of the user: the track has no artist. *)
Definition local_file : track :=
  {| name := "recording.mp3"; artists := [];
     album := {| album_name := ""; release_date := "" |};
     duration_ms := 1000; popularity := 0; explicit := false |}.

(** [Demo.env], except that every window answers Song One and the local
    file. *)
Definition env_with_local_file : Env :=
  {| World := nat;
     sp_current_user_top_tracks :=
       fun _ _ w => (Ok [Demo.song_one; local_file], S w);
     sp_artist := Demo.artist;
     requests_get_json := Demo.get_json;
     detect := Demo.detect_language;
     lower := ascii_lower;
     countries := ["Chile"; "Brazil"; "France"];
     LAST_CLIENT_ID := "0123456789abcdef";
     StandardScaler_fit_transform := Demo.scale;
     KMeans_fit := Demo.fit |}.

End DemoApp.

(** * Properties *)

(** ** Strings *)

Lemma prefix_occurs (needle hay : string) :
  String.prefix needle hay = true <-> exists after, hay = needle +:+ after.
Proof.
  revert hay. induction needle as [|c needle IH]; intros [|d hay]; simpl.
  - split; [intros _; exists ""; reflexivity | reflexivity].
  - split; [intros _; exists (String d hay); reflexivity | reflexivity].
  - split; [discriminate | intros [after H]; discriminate].
  - destruct (Ascii.ascii_dec c d) as [->|Hne].
    + rewrite IH. split; intros [after H]; exists after.
      * now rewrite H.
      * now injection H.
    + split; [discriminate | intros [after H]; injection H; congruence].
Qed.

Lemma contains_occurs (needle hay : string) :
  contains needle hay = true <-> occurs_in needle hay.
Proof.
  unfold occurs_in. induction hay as [|d hay IH]; cbn [contains].
  - rewrite orb_false_r, prefix_occurs. split.
    + intros [after H]. exists "", after. exact H.
    + intros [before [after H]]. destruct before; [now exists after | discriminate].
  - rewrite orb_true_iff, prefix_occurs, IH. split.
    + intros [[after H] | [before [after H]]].
      * exists "", after. exact H.
      * exists (String d before), after. simpl. now rewrite H.
    + intros [before [after H]]. destruct before as [|b before]; simpl in H.
      * left. now exists after.
      * right. injection H as _ H. now exists before, after.
Qed.

Lemma contains_in_empty (needle : string) :
  needle <> "" -> contains needle "" = false.
Proof. destruct needle; [congruence | reflexivity]. Qed.

(** ** The country resolver *)

Section CountryResolver.

Variable E : Env.

Lemma scan_countries_text (bio : string) (cs : list string) :
  exists c, scan_countries E (JStr bio) cs = Ok c /\
    ((exists before after,
        cs = before ++ c :: after /\
        contains (lower E c) (lower E bio) = true /\
        forall c', In c' before -> contains (lower E c') (lower E bio) = false)
     \/ (c = "Unknown" /\
         forall c', In c' cs -> contains (lower E c') (lower E bio) = false)).
Proof.
  induction cs as [|c0 cs IH]; simpl.
  - exists "Unknown". split; [reflexivity | right; split; [reflexivity | intros c' []]].
  - destruct (contains (lower E c0) (lower E bio)) eqn:Hc0.
    + exists c0. split; [reflexivity | left]. exists [], cs.
      split; [reflexivity | split; [exact Hc0 | intros c' []]].
    + destruct IH as [c [Hscan Hc]]. exists c. split; [exact Hscan |].
      destruct Hc as [[before [after [Hcs [Hhit Hmiss]]]] | [Hunk Hmiss]].
      * left. exists (c0 :: before), after. rewrite Hcs.
        split; [reflexivity | split; [exact Hhit |]].
        intros c' [<- | Hin]; [exact Hc0 | now apply Hmiss].
      * right. split; [exact Hunk |].
        intros c' [<- | Hin]; [exact Hc0 | now apply Hmiss].
Qed.

Lemma scan_countries_range (bio : json) (cs : list string) (c : string) :
  scan_countries E bio cs = Ok c -> c = "Unknown" \/ In c cs.
Proof.
  induction cs as [|c0 cs IH]; simpl.
  - intros H. left. congruence.
  - destruct (py_lower E bio) as [text|e]; [|discriminate].
    destruct (contains (lower E c0) text).
    + intros H. right. left. congruence.
    + intros H. destruct (IH H) as [Hu | Hin]; [now left | right; now right].
Qed.

Lemma scan_countries_not_text (v : json) (cs : list string) :
  (forall text, v <> JStr text) ->
  scan_countries E v cs = Ok "Unknown" \/ exists e, scan_countries E v cs = Raise e.
Proof.
  intros Hv. destruct cs as [|c0 cs]; [now left | right]. simpl.
  destruct v; simpl; eauto. now destruct (Hv s).
Qed.

Lemma scan_countries_no_match (bio : string) (cs : list string) :
  (forall c, In c cs -> contains (lower E c) (lower E bio) = false) ->
  scan_countries E (JStr bio) cs = Ok "Unknown".
Proof.
  induction cs as [|c0 cs IH]; intros Hmiss; simpl; [reflexivity|].
  rewrite (Hmiss c0 (or_introl eq_refl)). apply IH.
  intros c Hin. apply Hmiss. now right.
Qed.

(** The helper always returns, having made exactly one request. *)
Lemma get_artist_country_lastfm_run (artist_name : string) (s : state E) :
  get_artist_country_lastfm E artist_name s =
  (Ok (country_of_response E
         (fst (requests_get_json E (lastfm_url E artist_name) (world s)))),
   log E (CallGet (lastfm_url E artist_name))
     (snd (requests_get_json E (lastfm_url E artist_name) (world s))) s).
Proof.
  unfold get_artist_country_lastfm, try_except, bind, call_get, lift, ret.
  destruct (requests_get_json E (lastfm_url E artist_name) (world s)) as [[res|e] w];
    simpl; [|reflexivity].
  destruct (biography res) as [bio|e]; [|reflexivity].
  destruct (scan_countries E bio (countries E)); reflexivity.
Qed.

Lemma country_of_response_range (r : result json) :
  country_of_response E r = "Unknown" \/ In (country_of_response E r) (countries E).
Proof.
  unfold country_of_response. destruct r as [res|e]; [|now left].
  destruct (biography res) as [bio|e]; [|now left].
  destruct (scan_countries E bio (countries E)) as [c|e] eqn:Hscan; [|now left].
  exact (scan_countries_range _ _ _ Hscan).
Qed.

Lemma country_of_failed_fetch (r : result json) :
  bio_fetch_failed r ->
  lower E "" = "" ->
  (forall c, In c (countries E) -> lower E c <> "") ->
  country_of_response E r = "Unknown".
Proof.
  intros Hfail Hlow Hnames. unfold country_of_response.
  assert (Hempty : scan_countries E (JStr "") (countries E) = Ok "Unknown").
  { apply scan_countries_no_match. intros c Hin. rewrite Hlow.
    apply contains_in_empty. now apply Hnames. }
  assert (Hother : forall v, (forall text, v <> JStr text) ->
            match scan_countries E v (countries E) with
            | Ok country => country | Raise _ => "Unknown" end = "Unknown").
  { intros v Hv. destruct (scan_countries_not_text v (countries E) Hv) as [H | [e H]];
      now rewrite H. }
  destruct r as [res|e]; [|reflexivity]. simpl in Hfail.
  unfold biography.
  destruct res as [| | | |items|members]; try reflexivity.
  simpl in *. destruct (dict_lookup "artist" members) as [artist|]; simpl.
  2:{ now rewrite Hempty. }
  destruct artist as [| | | |items|members1]; try reflexivity.
  simpl. destruct (dict_lookup "bio" members1) as [bio|]; simpl.
  2:{ now rewrite Hempty. }
  destruct bio as [| | | |items|members2]; try reflexivity.
  simpl. destruct (dict_lookup "content" members2) as [content|]; simpl.
  2:{ now rewrite Hempty. }
  apply Hother. intros text ->. now apply (Hfail text).
Qed.

End CountryResolver.

(** C2. When the biography fetch succeeds, the resolver returns the first
    country of the canonical list, in the order of the list, whose name occurs
    in the biography, both taken in lower case; when no name occurs it returns
    ["Unknown"]. The position of the names in the text plays no role. *)
Theorem country_is_first_match_in_list_order
    (E : Env) (artist_name : string) (s : state E)
    (res : json) (w : World E) (bio : string) :
  requests_get_json E (lastfm_url E artist_name) (world s) = (Ok res, w) ->
  biography res = Ok (JStr bio) ->
  exists country,
    get_artist_country_lastfm E artist_name s =
      (Ok country, log E (CallGet (lastfm_url E artist_name)) w s) /\
    first_listed_match E bio country.
Proof.
  intros Hget Hbio. rewrite get_artist_country_lastfm_run, Hget. simpl.
  rewrite Hbio.
  destruct (scan_countries_text E bio (countries E)) as [c [Hscan Hc]].
  rewrite Hscan. exists c. split; [reflexivity|].
  destruct Hc as [[before [after [Hcs [Hhit Hmiss]]]] | [Hunk Hmiss]].
  - left. exists before, after. split; [exact Hcs | split].
    + now apply contains_occurs.
    + intros c' Hin Hocc. apply contains_occurs in Hocc.
      rewrite (Hmiss c' Hin) in Hocc. discriminate.
  - right. split; [exact Hunk |].
    intros c' Hin Hocc. apply contains_occurs in Hocc.
    rewrite (Hmiss c' Hin) in Hocc. discriminate.
Qed.

(** In the biography of Artist One, Brazil comes first in the text and Chile
    first in the list: the resolver answers Chile. *)
Lemma country_is_first_match_witness :
  requests_get_json Demo.env (lastfm_url Demo.env "Artist One") (world Demo.start) =
    (Ok (JObj [("artist",
                JObj [("name", JStr "Artist One");
                      ("bio", JObj [("content",
                         JStr "Born in BRAZIL, the singer later moved to Chile.")])])]),
     1%nat) /\
  exists country,
    get_artist_country_lastfm Demo.env "Artist One" Demo.start =
      (Ok country,
       log Demo.env (CallGet (lastfm_url Demo.env "Artist One")) 1%nat Demo.start) /\
    first_listed_match Demo.env "Born in BRAZIL, the singer later moved to Chile." country.
Proof.
  split; [reflexivity |].
  exact (country_is_first_match_in_list_order Demo.env "Artist One" Demo.start
           _ _ _ eq_refl eq_refl).
Defined.

Example list_order_beats_text_position :
  fst (get_artist_country_lastfm Demo.env "Artist One" Demo.start) = Ok "Chile".
Proof. reflexivity. Qed.

(** C7. When the biography fetch fails (the request raises, or the answer
    holds no text at artist.bio.content), the resolver returns exactly
    ["Unknown"] and raises nothing. The canonical list is taken to hold no
    empty name. *)
Theorem failed_fetch_gives_unknown
    (E : Env) (artist_name : string) (s : state E) (r : result json) (w : World E) :
  requests_get_json E (lastfm_url E artist_name) (world s) = (r, w) ->
  bio_fetch_failed r ->
  lower E "" = "" ->
  (forall c, In c (countries E) -> lower E c <> "") ->
  get_artist_country_lastfm E artist_name s =
    (Ok "Unknown", log E (CallGet (lastfm_url E artist_name)) w s).
Proof.
  intros Hget Hfail Hlow Hnames.
  rewrite get_artist_country_lastfm_run, Hget. simpl.
  now rewrite (country_of_failed_fetch E r Hfail Hlow Hnames).
Qed.

Lemma demo_names_not_empty (c : string) :
  In c (countries Demo.env) -> lower Demo.env c <> "".
Proof. intros [<- | [<- | [<- | []]]]; discriminate. Qed.

(** A connection error (Artist Gone) and an error document without the
    artist field (Artist Two). *)
Lemma failed_fetch_gives_unknown_witness :
  get_artist_country_lastfm Demo.env "Artist Gone" Demo.start =
    (Ok "Unknown",
     log Demo.env (CallGet (lastfm_url Demo.env "Artist Gone")) 1%nat Demo.start) /\
  get_artist_country_lastfm Demo.env "Artist Two" Demo.start =
    (Ok "Unknown",
     log Demo.env (CallGet (lastfm_url Demo.env "Artist Two")) 1%nat Demo.start).
Proof.
  split.
  - apply (failed_fetch_gives_unknown Demo.env "Artist Gone" Demo.start
             (Raise (Exception "ConnectionError" "Max retries exceeded")) 1%nat).
    + reflexivity.
    + exact I.
    + reflexivity.
    + exact demo_names_not_empty.
  - apply (failed_fetch_gives_unknown Demo.env "Artist Two" Demo.start
             (Ok (JObj [("error", JNum 6);
                        ("message", JStr "The artist you supplied could not be found")]))
             1%nat).
    + reflexivity.
    + intros text. discriminate.
    + reflexivity.
    + exact demo_names_not_empty.
Defined.

(** C9. Whatever the request returns, the resolver answers ["Unknown"] or a
    name of the canonical list as the list spells it, never text taken from
    the biography. *)
Theorem country_is_unknown_or_canonical
    (E : Env) (artist_name : string) (s : state E) :
  exists country s',
    get_artist_country_lastfm E artist_name s = (Ok country, s') /\
    (country = "Unknown" \/ In country (countries E)).
Proof.
  rewrite get_artist_country_lastfm_run. eexists. eexists.
  split; [reflexivity |]. apply country_of_response_range.
Qed.

Example canonical_spelling_is_returned :
  fst (get_artist_country_lastfm Demo.env "Artist One" Demo.start) <> Ok "chile" /\
  fst (get_artist_country_lastfm Demo.env "Artist One" Demo.start) <> Ok "BRAZIL".
Proof. split; discriminate. Qed.

(** ** The track fetcher *)

Lemma top_tracks_requests_app (evs1 evs2 : list event) :
  top_tracks_requests (evs1 ++ evs2) =
  top_tracks_requests evs1 ++ top_tracks_requests evs2.
Proof.
  induction evs1 as [|ev evs1 IH]; simpl; [reflexivity|].
  destruct ev; simpl; now rewrite IH.
Qed.

Section Fetcher.

Variable E : Env.

Lemma quiet_step_refl (s : state E) : quiet_step s s.
Proof. exists []. split; [now rewrite app_nil_r | reflexivity]. Qed.

Lemma quiet_step_trans (s1 s2 s3 : state E) :
  quiet_step s1 s2 -> quiet_step s2 s3 -> quiet_step s1 s3.
Proof.
  intros [evs1 [H1 Q1]] [evs2 [H2 Q2]]. exists (evs1 ++ evs2). split.
  - now rewrite H2, H1, <- app_assoc.
  - now rewrite top_tracks_requests_app, Q1, Q2.
Qed.

Lemma quiet_step_log (ev : event) (w : World E) (s : state E) :
  top_tracks_requests [ev] = [] -> quiet_step s (log E ev w s).
Proof. intros H. exists [ev]. split; [reflexivity | exact H]. Qed.

(** The row built for [item] once its first artist, the artist's metadata
    and the country are known. *)
Lemma enrich_ok (item : track) (first_artist : artist_ref) (others : list artist_ref)
    (info : artist_info) (w1 : World E) (s : state E) :
  artists item = first_artist :: others ->
  sp_artist E (artist_id first_artist) (world s) = (Ok info, w1) ->
  enrich E item s =
  (Ok {| Track_Name := name item;
         Artist := artist_name first_artist;
         Album := album_name (album item);
         Genre := match genres info with Some (g :: _) => g | _ => "Unknown" end;
         Language :=
           match detect E (name item +:+ " " +:+ artist_name first_artist) with
           | Ok code => code
           | Raise _ => "unknown"
           end;
         Duration_min :=
           py_round2 (fdiv (float_of_Z (duration_ms item)) (float_of_Z 60000));
         Popularity := popularity item;
         Explicit := if explicit item then "Explicit" else "Clean";
         Release_Year := String.substring 0 4 (release_date (album item));
         Country :=
           country_of_response E
             (fst (requests_get_json E (lastfm_url E (artist_name first_artist)) w1)) |},
   log E (CallGet (lastfm_url E (artist_name first_artist)))
     (snd (requests_get_json E (lastfm_url E (artist_name first_artist)) w1))
     (log E (CallArtist (artist_id first_artist)) w1 s)).
Proof.
  intros Hartists Hinfo.
  unfold enrich, bind, lift, call_artist, ret. rewrite Hartists.
  cbn [py_index0]. rewrite Hinfo.
  rewrite get_artist_country_lastfm_run. cbn [world log].
  destruct (genres info) as [[|g gs]|]; reflexivity.
Qed.

Lemma enrich_artist_raises (item : track) (first_artist : artist_ref)
    (others : list artist_ref) (e : exn) (w1 : World E) (s : state E) :
  artists item = first_artist :: others ->
  sp_artist E (artist_id first_artist) (world s) = (Raise e, w1) ->
  enrich E item s = (Raise e, log E (CallArtist (artist_id first_artist)) w1 s).
Proof.
  intros Hartists Hinfo.
  unfold enrich, bind, lift, call_artist. rewrite Hartists.
  cbn [py_index0]. now rewrite Hinfo.
Qed.

(** The two ways one pass of the loop body can end. A pass raises only when
    the genre step does. *)
Lemma enrich_cases (item : track) (s : state E) :
  (exists r s', enrich E item s = (Ok r, s') /\ row_of_track item r /\ quiet_step s s')
  \/ (exists e s', enrich E item s = (Raise e, s') /\
                   genre_step E item s = (Raise e, s') /\ quiet_step s s').
Proof.
  destruct (artists item) as [|first_artist others] eqn:Hartists.
  - right. exists (IndexError "list index out of range"), s.
    unfold enrich, genre_step, bind, lift. rewrite Hartists.
    repeat split; try reflexivity. apply quiet_step_refl.
  - destruct (sp_artist E (artist_id first_artist) (world s)) as [[info|e] w1] eqn:Hinfo.
    + left. rewrite (enrich_ok item first_artist others info w1 s Hartists Hinfo).
      eexists. eexists. split; [reflexivity | split].
      * unfold row_of_track. cbn. repeat split; reflexivity.
      * eapply quiet_step_trans; apply quiet_step_log; reflexivity.
    + right. rewrite (enrich_artist_raises item first_artist others e w1 s Hartists Hinfo).
      exists e. eexists. split; [reflexivity | split].
      * unfold genre_step, bind, lift, call_artist. rewrite Hartists.
        cbn [py_index0]. now rewrite Hinfo.
      * apply quiet_step_log. reflexivity.
Qed.

Lemma enrich_loop_cons (item : track) (rest : list track) (rows : list row)
    (s : state E) :
  enrich_loop E (item :: rest) rows s =
  match enrich E item s with
  | (Ok r, s') => enrich_loop E rest (rows ++ [r]) s'
  | (Raise e, s') => (Raise e, s')
  end.
Proof. reflexivity. Qed.

(** The loop either appends one row per item, in order, or stops at the
    first item whose genre step raises. *)
Lemma enrich_loop_cases (items : list track) (rows : list row) (s : state E) :
  (exists new s', enrich_loop E items rows s = (Ok (rows ++ new), s') /\
                  Forall2 row_of_track items new /\ quiet_step s s')
  \/ (exists e item s0 s',
        enrich_loop E items rows s = (Raise e, s') /\
        In item items /\ genre_step E item s0 = (Raise e, s') /\ quiet_step s s').
Proof.
  revert rows s. induction items as [|item rest IH]; intros rows s.
  - left. exists [], s. cbn. rewrite app_nil_r.
    split; [reflexivity | split; [constructor | apply quiet_step_refl]].
  - rewrite enrich_loop_cons.
    destruct (enrich_cases item s) as [[r [s1 [Hrun [Hrow Hq]]]] | [e [s1 [Hrun [Hstep Hq]]]]];
      rewrite Hrun.
    + destruct (IH (rows ++ [r]) s1)
        as [[new [s2 [Hloop [Hall Hq2]]]] | [e [it [s0 [s2 [Hloop [Hin [Hstep Hq2]]]]]]]].
      * left. exists (r :: new), s2. rewrite Hloop, <- app_assoc.
        split; [reflexivity | split; [now constructor |]].
        now apply quiet_step_trans with s1.
      * right. exists e, it, s0, s2.
        split; [exact Hloop | split; [now right | split; [exact Hstep |]]].
        now apply quiet_step_trans with s1.
    + right. exists e, item, s, s1.
      split; [reflexivity | split; [now left | split; [exact Hstep | exact Hq]]].
Qed.

(** [fetch_tracks] in terms of what the top-tracks request answers. *)
Lemma fetch_tracks_request_raises (time_range : string) (s : state E)
    (e : exn) (w : World E) :
  sp_current_user_top_tracks E 20 time_range (world s) = (Raise e, w) ->
  fetch_tracks E time_range s =
  (Ok [], log E (StError ("Failed to fetch data: " +:+ exn_msg e)) w
            (log E (CallTopTracks 20 time_range) w s)).
Proof.
  intros Htop. unfold fetch_tracks, try_except, bind, call_top_tracks.
  now rewrite Htop.
Qed.

Lemma fetch_tracks_no_items (time_range : string) (s : state E) (w : World E) :
  sp_current_user_top_tracks E 20 time_range (world s) = (Ok [], w) ->
  fetch_tracks E time_range s = (Ok [], log E (CallTopTracks 20 time_range) w s).
Proof.
  intros Htop. unfold fetch_tracks, try_except, bind, call_top_tracks.
  now rewrite Htop.
Qed.

Lemma fetch_tracks_items (time_range : string) (s : state E)
    (items : list track) (w : World E) :
  sp_current_user_top_tracks E 20 time_range (world s) = (Ok items, w) ->
  fetch_tracks E time_range s =
  match enrich_loop E items [] (log E (CallTopTracks 20 time_range) w s) with
  | (Ok rows, s') => (Ok rows, s')
  | (Raise e, s') =>
      (Ok [], log E (StError ("Failed to fetch data: " +:+ exn_msg e)) (world s') s')
  end.
Proof.
  intros Htop. unfold fetch_tracks, try_except, bind, call_top_tracks.
  rewrite Htop. destruct items; reflexivity.
Qed.

(** A fetch never raises, and issues exactly one top-tracks request: its
    first action, for its own time range. *)
Lemma fetch_tracks_total (time_range : string) (s : state E) :
  exists df s' evs,
    fetch_tracks E time_range s = (Ok df, s') /\
    trace s' = trace s ++ CallTopTracks 20 time_range :: evs /\
    top_tracks_requests evs = [].
Proof.
  destruct (sp_current_user_top_tracks E 20 time_range (world s)) as [[items|e] w] eqn:Htop.
  - rewrite (fetch_tracks_items time_range s items w Htop).
    set (s0 := log E (CallTopTracks 20 time_range) w s).
    destruct (enrich_loop_cases items [] s0)
      as [[new [s1 [Hloop [_ Hq]]]] | [e [it [sa [s1 [Hloop [_ [_ Hq]]]]]]]];
      rewrite Hloop; destruct Hq as [evs [Htr Hquiet]].
    + exists new, s1, evs. split; [reflexivity | split; [|exact Hquiet]].
      rewrite Htr. unfold s0. cbn. now rewrite <- app_assoc.
    + eexists. eexists. exists (evs ++ [StError ("Failed to fetch data: " +:+ exn_msg e)]).
      split; [reflexivity | split].
      * cbn. rewrite Htr. unfold s0. cbn. now rewrite <- !app_assoc.
      * rewrite top_tracks_requests_app, Hquiet. reflexivity.
  - rewrite (fetch_tracks_request_raises time_range s e w Htop).
    eexists. eexists. exists [StError ("Failed to fetch data: " +:+ exn_msg e)].
    split; [reflexivity | split; [|reflexivity]].
    cbn. now rewrite <- app_assoc.
Qed.

End Fetcher.

(** C3. A top-tracks request that answers no item gives the empty table and
    reports nothing; a request that raises has its message shown by
    [st.error] and gives the empty table; in every case [fetch_tracks]
    returns a table and raises nothing. *)
Theorem fetch_tracks_never_raises (E : Env) (time_range : string) (s : state E) :
  (forall w,
     sp_current_user_top_tracks E 20 time_range (world s) = (Ok [], w) ->
     fetch_tracks E time_range s = (Ok [], log E (CallTopTracks 20 time_range) w s)) /\
  (forall e w,
     sp_current_user_top_tracks E 20 time_range (world s) = (Raise e, w) ->
     fetch_tracks E time_range s =
       (Ok [], log E (StError ("Failed to fetch data: " +:+ exn_msg e)) w
                 (log E (CallTopTracks 20 time_range) w s))) /\
  (exists df s', fetch_tracks E time_range s = (Ok df, s')).
Proof.
  split; [|split].
  - intros w. apply fetch_tracks_no_items.
  - intros e w. apply fetch_tracks_request_raises.
  - destruct (fetch_tracks_total E time_range s) as [df [s' [_ [H _]]]]. now exists df, s'.
Qed.

(** The medium-term window has no item; the token has expired for a window
    the demo platform does not know. *)
Lemma fetch_tracks_never_raises_witness :
  fetch_tracks Demo.env "medium_term" Demo.start =
    (Ok [], Build_state Demo.env 1%nat [CallTopTracks 20 "medium_term"]) /\
  fetch_tracks Demo.env "last_year" Demo.start =
    (Ok [], Build_state Demo.env 1%nat
              [CallTopTracks 20 "last_year";
               StError "Failed to fetch data: http status: 401, The access token expired"]).
Proof.
  split.
  - exact (proj1 (fetch_tracks_never_raises Demo.env "medium_term" Demo.start)
             1%nat eq_refl).
  - exact (proj1 (proj2 (fetch_tracks_never_raises Demo.env "last_year" Demo.start))
             (Exception "SpotifyException" "http status: 401, The access token expired")
             1%nat eq_refl).
Defined.

(** C1, as the code has it. For a track with a first artist whose metadata
    lookup succeeds, the row is produced and the loop goes on with the rest of
    the batch, whatever language detection and the biography request do:
    Language is ["unknown"] when detection raises, Country is ["Unknown"] when
    the request raises, Genre is ["Unknown"] when the artist has no genre, and
    the other fields are those of the raw track. When the metadata lookup
    itself raises, no sentinel is substituted: the exception leaves the
    loop. *)
Theorem enrichment_failures_degrade_one_field
    (E : Env) (item : track) (first_artist : artist_ref) (others : list artist_ref)
    (rest : list track) (rows : list row) (s : state E) :
  artists item = first_artist :: others ->
  match sp_artist E (artist_id first_artist) (world s) with
  | (Ok info, w1) =>
      exists r s',
        enrich E item s = (Ok r, s') /\
        enrich_loop E (item :: rest) rows s = enrich_loop E rest (rows ++ [r]) s' /\
        row_of_track item r /\
        Artist r = artist_name first_artist /\
        Genre r = match genres info with Some (g :: _) => g | _ => "Unknown" end /\
        Language r =
          match detect E (name item +:+ " " +:+ artist_name first_artist) with
          | Ok code => code
          | Raise _ => "unknown"
          end /\
        Country r =
          country_of_response E
            (fst (requests_get_json E (lastfm_url E (artist_name first_artist)) w1)) /\
        (forall e,
           fst (requests_get_json E (lastfm_url E (artist_name first_artist)) w1) = Raise e ->
           Country r = "Unknown")
  | (Raise e, w1) =>
      enrich_loop E (item :: rest) rows s =
        (Raise e, log E (CallArtist (artist_id first_artist)) w1 s)
  end.
Proof.
  intros Hartists.
  destruct (sp_artist E (artist_id first_artist) (world s)) as [[info|e] w1] eqn:Hinfo.
  - eexists. eexists.
    rewrite enrich_loop_cons, (enrich_ok E item first_artist others info w1 s Hartists Hinfo).
    split; [reflexivity | split; [reflexivity |]].
    split; [unfold row_of_track; cbn; repeat split; reflexivity |].
    cbn. repeat split; try reflexivity.
    intros e He. now rewrite He.
  - now rewrite enrich_loop_cons,
      (enrich_artist_raises E item first_artist others e w1 s Hartists Hinfo).
Qed.

(** The second song of the demo: no genre listed, a title without letters,
    and an error document from Last.fm. The fourth: no genres key, and a
    connection error. *)
Lemma enrichment_failures_degrade_one_field_witness :
  (exists r s',
     enrich Demo.env Demo.song_two Demo.start = (Ok r, s') /\
     Genre r = "Unknown" /\ Language r = "unknown" /\ Country r = "Unknown" /\
     Track_Name r = "12345" /\ Popularity r = 35%Z) /\
  (exists r s',
     enrich Demo.env Demo.song_four Demo.start = (Ok r, s') /\
     Genre r = "Unknown" /\ Language r = "en" /\ Country r = "Unknown" /\
     Track_Name r = "Song Four" /\ Popularity r = 80%Z).
Proof.
  split.
  - destruct (enrichment_failures_degrade_one_field Demo.env Demo.song_two
                Demo.artist_two [] [] [] Demo.start eq_refl)
      as [r [s' [Hrun [_ [Hraw [_ [Hgenre [Hlang [Hcountry _]]]]]]]]].
    exists r, s'. destruct Hraw as [Hname [_ [_ [Hpop _]]]].
    repeat split; assumption.
  - destruct (enrichment_failures_degrade_one_field Demo.env Demo.song_four
                Demo.artist_three [] [] [] Demo.start eq_refl)
      as [r [s' [Hrun [_ [Hraw [_ [Hgenre [Hlang [Hcountry _]]]]]]]]].
    exists r, s'. destruct Hraw as [Hname [_ [_ [Hpop _]]]].
    repeat split; assumption.
Defined.

(** C1 as the specification words it fails on the code: in the long-term
    window of the demo the metadata lookup of the second song raises; no row
    with Genre ["Unknown"] is produced for it, and the row already built for
    the first song is lost with the whole batch. *)
Lemma artist_lookup_failure_aborts_batch :
  fst (sp_artist Demo.env "gone" 2%nat) =
    Raise (Exception "SpotifyException" "http status: 404, Resource not found") /\
  (forall s, exists e s', enrich Demo.env Demo.song_three s = (Raise e, s')) /\
  fst (fetch_tracks Demo.env "long_term" Demo.start) = Ok [] /\
  ~ (forall (E : Env) (item : track) (first_artist : artist_ref)
            (others : list artist_ref) (s : state E),
       artists item = first_artist :: others ->
       exists r s',
         enrich E item s = (Ok r, s') /\
         (forall e w,
            sp_artist E (artist_id first_artist) (world s) = (Raise e, w) ->
            Genre r = "Unknown")).
Proof.
  split; [reflexivity | split; [| split; [reflexivity |]]].
  - intros s. eexists. eexists. reflexivity.
  - intros H.
    destruct (H Demo.env Demo.song_three Demo.artist_gone [] Demo.start eq_refl)
      as [r [s' [Hrun _]]].
    discriminate Hrun.
Qed.

(** C6, as the code has it. For the items a top-tracks request answers, the
    table has exactly one row per item, in the order of the answer, unless the
    genre step of some item raised: then the error is reported and the table
    is empty. *)
Theorem one_row_per_track_unless_lookup_fails
    (E : Env) (time_range : string) (s : state E) (items : list track) (w : World E) :
  sp_current_user_top_tracks E 20 time_range (world s) = (Ok items, w) ->
  exists df s',
    fetch_tracks E time_range s = (Ok df, s') /\
    ((length df = length items /\ Forall2 row_of_track items df)
     \/ (df = [] /\
         exists item s0 s1 e,
           In item items /\
           genre_step E item s0 = (Raise e, s1) /\
           s' = log E (StError ("Failed to fetch data: " +:+ exn_msg e)) (world s1) s1)).
Proof.
  intros Htop. rewrite (fetch_tracks_items E time_range s items w Htop).
  destruct (enrich_loop_cases E items [] (log E (CallTopTracks 20 time_range) w s))
    as [[new [s1 [Hloop [Hall _]]]] | [e [item [s0 [s1 [Hloop [Hin [Hstep _]]]]]]]];
    rewrite Hloop.
  - exists new, s1. split; [reflexivity | left]. split; [|exact Hall].
    symmetry. exact (Forall2_length _ _ _ Hall).
  - eexists. eexists. split; [reflexivity | right]. split; [reflexivity |].
    exists item, s0, s1, e. repeat split; assumption.
Qed.

Lemma one_row_per_track_witness :
  exists df s',
    fetch_tracks Demo.env "short_term" Demo.start = (Ok df, s') /\
    length df = 2%nat /\
    Forall2 row_of_track [Demo.song_one; Demo.song_two] df.
Proof.
  destruct (one_row_per_track_unless_lookup_fails Demo.env "short_term" Demo.start
              [Demo.song_one; Demo.song_two] 1%nat eq_refl)
    as [df [s' [Hrun [[Hlen Hall] | [Hnil _]]]]].
  - exists df, s'. repeat split; assumption.
  - exfalso. rewrite Hnil in Hrun. discriminate Hrun.
Defined.

(** C6 as the specification words it fails on the code: the long-term window
    of the demo answers three items and the table has no row. *)
Lemma failed_lookup_drops_all_rows :
  fst (sp_current_user_top_tracks Demo.env 20 "long_term" 0%nat) =
    Ok [Demo.song_one; Demo.song_three; Demo.song_two] /\
  fst (fetch_tracks Demo.env "long_term" Demo.start) = Ok [] /\
  ~ (forall (E : Env) (time_range : string) (s : state E)
            (items : list track) (w : World E),
       sp_current_user_top_tracks E 20 time_range (world s) = (Ok items, w) ->
       exists df s',
         fetch_tracks E time_range s = (Ok df, s') /\ length df = length items).
Proof.
  split; [reflexivity | split; [reflexivity |]].
  intros H.
  destruct (H Demo.env "long_term" Demo.start _ _ eq_refl) as [df [s' [Hrun Hlen]]].
  injection Hrun as <- _. discriminate Hlen.
Qed.

(** C8. Loading issues the top-tracks request of the three fixed windows,
    then the one of the selected window, in this order and nothing more, also
    when the selected window is one of the three; when the selected table is
    empty the script shows the warning and stops, and nothing below the test
    runs. *)
Theorem load_data_fetches_four_windows
    (E : Env) (time_range : string) (tabs : loaded -> M E unit) (s : state E) :
  exists data s1 evs,
    load_data E time_range s = (Ok data, s1) /\
    trace s1 = trace s ++ evs /\
    top_tracks_requests evs = ["short_term"; "medium_term"; "long_term"; time_range] /\
    (df data = [] ->
     dashboard E time_range tabs s =
       (Stopped, log E (StWarning "No data found.") (world s1) s1)).
Proof.
  destruct (fetch_tracks_total E "short_term" s) as [d1 [s1 [e1 [H1 [T1 Q1]]]]].
  destruct (fetch_tracks_total E "medium_term" s1) as [d2 [s2 [e2 [H2 [T2 Q2]]]]].
  destruct (fetch_tracks_total E "long_term" s2) as [d3 [s3 [e3 [H3 [T3 Q3]]]]].
  destruct (fetch_tracks_total E time_range s3) as [d4 [s4 [e4 [H4 [T4 Q4]]]]].
  assert (Hload : load_data E time_range s =
                  (Ok {| df_short := d1; df_medium := d2; df_long := d3; df := d4 |}, s4)).
  { unfold load_data, bind. now rewrite H1, H2, H3, H4. }
  eexists. exists s4.
  exists ((CallTopTracks 20 "short_term" :: e1) ++ (CallTopTracks 20 "medium_term" :: e2)
          ++ (CallTopTracks 20 "long_term" :: e3) ++ (CallTopTracks 20 time_range :: e4)).
  split; [exact Hload | split; [| split]].
  - rewrite T4, T3, T2, T1. now rewrite <- !app_assoc.
  - rewrite !top_tracks_requests_app. cbn. now rewrite Q1, Q2, Q3, Q4.
  - cbn. intros Hempty. unfold dashboard. rewrite Hload. cbn. now rewrite Hempty.
Qed.

(** Selecting the medium-term window, which has no item: four requests, the
    medium-term one twice, then the warning and the stop. *)
Lemma load_data_fetches_four_windows_witness :
  top_tracks_requests
    (trace (snd (load_data Demo.env "medium_term" Demo.start))) =
    ["short_term"; "medium_term"; "long_term"; "medium_term"] /\
  forall tabs,
    fst (dashboard Demo.env "medium_term" tabs Demo.start) = Stopped.
Proof.
  split; [reflexivity |].
  intros tabs.
  destruct (load_data_fetches_four_windows Demo.env "medium_term" tabs Demo.start)
    as [data [s1 [evs [Hload [_ [_ Hstop]]]]]].
  rewrite Hstop; [reflexivity |].
  injection Hload as <- _. reflexivity.
Defined.

(** ** The diversity score *)

Lemma existsb_eqb_elem (x : string) (seen : list string) :
  existsb (String.eqb x) seen = true <-> x ∈ seen.
Proof.
  rewrite existsb_exists, list_elem_of_In. split.
  - intros [y [Hin Heq]]. apply String.eqb_eq in Heq. now subst.
  - intros Hin. exists x. split; [exact Hin | apply String.eqb_refl].
Qed.

Lemma unique_from_length (seen xs : list string) :
  length (unique_from seen xs) =
  size ((list_to_set xs : gset string) ∖ list_to_set seen).
Proof.
  revert seen. induction xs as [|x rest IH]; intros seen; cbn [unique_from].
  - replace ((list_to_set [] : gset string) ∖ list_to_set seen) with (∅ : gset string)
      by set_solver.
    now rewrite size_empty.
  - destruct (existsb (String.eqb x) seen) eqn:Hseen.
    + apply existsb_eqb_elem in Hseen. rewrite IH. f_equal.
      apply set_eq. intros y. rewrite list_to_set_cons. set_solver.
    + assert (Hnew : x ∉ seen).
      { intros Hin. apply existsb_eqb_elem in Hin. congruence. }
      cbn [length]. rewrite IH.
      replace ((list_to_set (x :: rest) : gset string) ∖ list_to_set seen)
        with ({[x]} ∪ ((list_to_set rest : gset string) ∖ list_to_set (x :: seen))).
      * assert (Hfresh : ({[x]} : gset string) ##
                         (list_to_set rest : gset string) ∖ list_to_set (x :: seen))
          by set_solver.
        now rewrite (size_union _ _ Hfresh), size_singleton.
      * apply set_eq. intros y. rewrite !list_to_set_cons.
        destruct (decide (y = x)) as [->|Hne]; set_solver.
Qed.

(** [len(column.unique())] is the number of distinct values of the column. *)
Lemma unique_length (xs : list string) : length (unique xs) = distinct xs.
Proof.
  unfold unique, distinct. rewrite unique_from_length. f_equal. set_solver.
Qed.

(** C4. The score is twice the number of distinct genres, plus twice the
    number of distinct languages, plus the number of distinct release years,
    plus one hundred minus the mean popularity; nothing clamps it. With 5
    genres, 3 languages, 4 years and a mean popularity of 60 it is exactly
    60, and a table whose tracks all have popularity 0 scores above 100. *)
Theorem diversity_formula :
  (forall df : DataFrame,
     diversity df =
     fadd (float_of_Z (2 * Z.of_nat (distinct (map Genre df)) +
                       2 * Z.of_nat (distinct (map Language df)) +
                       Z.of_nat (distinct (map Release_Year df))))
          (fsub (float_of_Z 100) (mean (map Popularity df)))) /\
  (forall df : DataFrame,
     distinct (map Genre df) = 5 ->
     distinct (map Language df) = 3 ->
     distinct (map Release_Year df) = 4 ->
     mean (map Popularity df) = float_of_Z 60 ->
     diversity df = float_of_Z 60) /\
  (exists df : DataFrame,
     diversity df = float_of_Z 120 /\ diversity_metric df = Ok "120 / 100").
Proof.
  assert (Hformula : forall df : DataFrame,
     diversity df =
     fadd (float_of_Z (2 * Z.of_nat (distinct (map Genre df)) +
                       2 * Z.of_nat (distinct (map Language df)) +
                       Z.of_nat (distinct (map Release_Year df))))
          (fsub (float_of_Z 100) (mean (map Popularity df)))).
  { intros df. unfold diversity. rewrite !unique_length. do 2 f_equal. lia. }
  split; [exact Hformula | split].
  - intros df Hg Hl Hy Hmean. rewrite Hformula, Hg, Hl, Hy, Hmean.
    vm_compute. reflexivity.
  - exists (Demo.sample_table [0; 0; 0; 0; 0]%Z). split; vm_compute; reflexivity.
Qed.

(** Five tracks of popularity 60 with five genres, three languages and four
    release years. *)
Lemma diversity_formula_witness :
  distinct (map Genre (Demo.sample_table [60; 60; 60; 60; 60]%Z)) = 5 /\
  distinct (map Language (Demo.sample_table [60; 60; 60; 60; 60]%Z)) = 3 /\
  distinct (map Release_Year (Demo.sample_table [60; 60; 60; 60; 60]%Z)) = 4 /\
  mean (map Popularity (Demo.sample_table [60; 60; 60; 60; 60]%Z)) = float_of_Z 60 /\
  diversity (Demo.sample_table [60; 60; 60; 60; 60]%Z) = float_of_Z 60.
Proof.
  assert (Hg : distinct (map Genre (Demo.sample_table [60; 60; 60; 60; 60]%Z)) = 5)
    by (vm_compute; reflexivity).
  assert (Hl : distinct (map Language (Demo.sample_table [60; 60; 60; 60; 60]%Z)) = 3)
    by (vm_compute; reflexivity).
  assert (Hy : distinct (map Release_Year (Demo.sample_table [60; 60; 60; 60; 60]%Z)) = 4)
    by (vm_compute; reflexivity).
  assert (Hm : mean (map Popularity (Demo.sample_table [60; 60; 60; 60; 60]%Z))
               = float_of_Z 60)
    by (vm_compute; reflexivity).
  split; [exact Hg | split; [exact Hl | split; [exact Hy | split; [exact Hm |]]]].
  exact (proj1 (proj2 diversity_formula) _ Hg Hl Hy Hm).
Defined.

(** ** Truncation of the score *)

Lemma py_int_truncates (x : float) (q : Q) :
  float_value x = Some q -> py_int x = Ok (Qtruncate q).
Proof.
  destruct x as [sz | si | | s m e]; cbn [float_value py_int]; try discriminate.
  - intros H. injection H as <-. reflexivity.
  - intros H. injection H as <-. f_equal.
    assert (Hpow : (0 < Z.pos m * 2 ^ e \/ e < 0)%Z).
    { destruct e; [left | left | right];
        first [lia | apply Z.mul_pos_pos; [lia | apply Z.pow_pos_nonneg; lia]]. }
    unfold Qtruncate, Qle_bool, Qceiling, Qfloor.
    destruct e as [|p|k], s; cbn [Qopp Qnum Qden inject_Z];
      rewrite ?Z.mul_1_r, ?Z.div_1_r, ?Z.opp_involutive.
    all: match goal with
         | |- context [Z.leb ?a ?b] => destruct (Z.leb_spec a b) as [Hle | Hlt]
         end; try lia; try reflexivity.
Qed.

Lemma py_int_not_finite (x : float) :
  float_value x = None -> exists e, py_int x = Raise e.
Proof.
  destruct x; cbn; try discriminate; intros _; eexists; reflexivity.
Qed.

(** C10. The number shown is [int] of the score: the score with its
    fractional part dropped, toward zero, and not the nearest integer. A table
    of ten tracks that scores 59.9 is shown as 59. *)
Theorem displayed_score_is_truncated :
  (forall df : DataFrame,
     match float_value (diversity df) with
     | Some q => diversity_metric df = Ok (str_of_Z (Qtruncate q) +:+ " / 100")
     | None => exists e, diversity_metric df = Raise e
     end) /\
  (forall df : DataFrame,
     diversity df = fdiv (float_of_Z 599) (float_of_Z 10) ->
     diversity_metric df = Ok "59 / 100").
Proof.
  assert (Hall : forall df : DataFrame,
     match float_value (diversity df) with
     | Some q => diversity_metric df = Ok (str_of_Z (Qtruncate q) +:+ " / 100")
     | None => exists e, diversity_metric df = Raise e
     end).
  { intros df. unfold diversity_metric.
    destruct (float_value (diversity df)) as [q|] eqn:Hq.
    - now rewrite (py_int_truncates _ _ Hq).
    - destruct (py_int_not_finite _ Hq) as [e He]. rewrite He. now exists e. }
  split; [exact Hall |].
  intros df Hscore. unfold diversity_metric. rewrite Hscore. vm_compute. reflexivity.
Qed.

(** Nine tracks of popularity 60 and one of 61: mean 60.1, score 59.9. *)
Lemma displayed_score_is_truncated_witness :
  diversity (Demo.sample_table [60; 60; 60; 60; 60; 60; 60; 60; 60; 61]%Z) =
    fdiv (float_of_Z 599) (float_of_Z 10) /\
  diversity_metric (Demo.sample_table [60; 60; 60; 60; 60; 60; 60; 60; 60; 61]%Z) =
    Ok "59 / 100".
Proof.
  assert (H : diversity (Demo.sample_table [60; 60; 60; 60; 60; 60; 60; 60; 60; 61]%Z) =
              fdiv (float_of_Z 599) (float_of_Z 10))
    by (vm_compute; reflexivity).
  split; [exact H |].
  exact (proj2 displayed_score_is_truncated _ H).
Defined.

Example truncation_is_toward_zero :
  Qtruncate (599 # 10) = 59%Z /\ Qtruncate (- (5 # 10)) = 0%Z /\
  Qtruncate (- (4801 # 10)) = (-480)%Z.
Proof. repeat split. Qed.

(** ** Clustering *)

Lemma set_cluster_rows (df : DataFrame) (labels : list Z) :
  length labels = length df ->
  set_cluster df labels = Ok (combine df labels) /\
  map fst (combine df labels) = df /\
  map snd (combine df labels) = labels.
Proof.
  intros Hlen. unfold set_cluster. rewrite Hlen, Nat.eqb_refl.
  split; [reflexivity |]. clear - Hlen.
  revert labels Hlen. induction df as [|r df IH]; intros [|l labels] Hlen;
    try discriminate; [now split |].
  cbn. injection Hlen as Hlen. destruct (IH labels Hlen) as [H1 H2].
  now rewrite H1, H2.
Qed.

(** C5. Given scikit-learn's contract for [KMeans.fit] and for the scaler, a
    table of fewer than 3 rows makes the clustering step raise the error that
    names the number of samples and of clusters, and no label is attached; a
    table of at least 3 rows gets exactly one label per row, each 0, 1 or 2. *)
Theorem clustering_needs_three_rows (E : Env) (df : DataFrame) :
  kmeans_contract (KMeans_fit E) ->
  scaler_contract (StandardScaler_fit_transform E) ->
  (length df < 3 -> clustering E df = Raise (n_samples_error (length df) 3)) /\
  (3 <= length df ->
   exists labels,
     clustering E df = Ok (combine df labels) /\
     map fst (combine df labels) = df /\
     map snd (combine df labels) = labels /\
     length labels = length df /\
     Forall (fun l => l = 0%Z \/ l = 1%Z \/ l = 2%Z) labels).
Proof.
  intros Hfit Hscale. unfold clustering.
  set (scaled := StandardScaler_fit_transform E
                   (map (fun r => (Duration_min r, Popularity r)) df)).
  assert (Hsize : length scaled = length df).
  { unfold scaled. now rewrite Hscale, length_map. }
  destruct (Hfit 3 42%Z scaled) as [Hsmall Hbig]; [lia |].
  rewrite Hsize in Hsmall, Hbig. split.
  - intros Hlt. now rewrite (Hsmall Hlt).
  - intros Hge. destruct (Hbig Hge) as [labels [Hrun [Hlen Hrange]]].
    rewrite Hrun.
    destruct (set_cluster_rows df labels Hlen) as [Hset [Hfst Hsnd]].
    exists labels. repeat split; try assumption.
    eapply Forall_impl; [exact Hrange |]. cbn. intros l Hl. lia.
Qed.

Lemma demo_fit_contract : kmeans_contract Demo.fit.
Proof.
  intros k seed X Hk. unfold Demo.fit. split.
  - intros Hlt. apply Nat.ltb_lt in Hlt. now rewrite Hlt.
  - intros Hge. apply Nat.ltb_ge in Hge. rewrite Hge.
    eexists. split; [reflexivity | split].
    + now rewrite length_map, length_seq.
    + apply List.Forall_forall. intros l Hin.
      apply in_map_iff in Hin. destruct Hin as [i [<- _]].
      pose proof (Nat.mod_upper_bound i k). lia.
Qed.

Lemma demo_scale_contract : scaler_contract Demo.scale.
Proof. intros X. unfold Demo.scale. apply length_map. Qed.

(** Two rows are refused; five rows are labelled. *)
Lemma clustering_needs_three_rows_witness :
  clustering Demo.env (Demo.sample_table [60; 35]%Z) =
    Raise (ValueError "n_samples=2 should be >= n_clusters=3.") /\
  exists labels,
    clustering Demo.env (Demo.sample_table [60; 35; 10; 80; 50]%Z) =
      Ok (combine (Demo.sample_table [60; 35; 10; 80; 50]%Z) labels) /\
    length labels = 5 /\
    Forall (fun l => l = 0%Z \/ l = 1%Z \/ l = 2%Z) labels.
Proof.
  split.
  - apply (proj1 (clustering_needs_three_rows Demo.env (Demo.sample_table [60; 35]%Z)
                    demo_fit_contract demo_scale_contract)).
    cbn. lia.
  - destruct (proj2 (clustering_needs_three_rows Demo.env
                       (Demo.sample_table [60; 35; 10; 80; 50]%Z)
                       demo_fit_contract demo_scale_contract))
      as [labels [Hrun [_ [_ [Hlen Hrange]]]]].
    + cbn. lia.
    + exists labels. repeat split; assumption.
Defined.

(** * Further properties of the script *)

(** ** Network calls of a fetch *)

Section FetcherCalls.

Variable E : Env.

Lemma enrich_trace (item : track) (s s' : state E) (r : row) :
  enrich E item s = (Ok r, s') ->
  trace s' = trace s ++ calls_of_track E item.
Proof.
  unfold calls_of_track.
  destruct (artists item) as [|first_artist others] eqn:Hartists.
  - unfold enrich, bind, lift. rewrite Hartists. discriminate.
  - destruct (sp_artist E (artist_id first_artist) (world s)) as [[info|e] w1] eqn:Hinfo.
    + rewrite (enrich_ok E item first_artist others info w1 s Hartists Hinfo).
      intros H. injection H as _ <-. cbn. now rewrite <- app_assoc.
    + rewrite (enrich_artist_raises E item first_artist others e w1 s Hartists Hinfo).
      discriminate.
Qed.

Lemma enrich_loop_trace (items : list track) (rows out : list row) (s s' : state E) :
  enrich_loop E items rows s = (Ok out, s') ->
  trace s' = trace s ++ flat_map (calls_of_track E) items.
Proof.
  revert rows s. induction items as [|item rest IH]; intros rows s.
  - cbn. intros H. injection H as _ <-. now rewrite app_nil_r.
  - rewrite enrich_loop_cons.
    destruct (enrich E item s) as [[r|e] s1] eqn:Hitem; [|discriminate].
    intros Hloop. rewrite (IH _ _ Hloop), (enrich_trace _ _ _ _ Hitem).
    cbn [flat_map]. now rewrite <- app_assoc.
Qed.

End FetcherCalls.

(** X1. A fetch that yields rows has made the top-tracks request and then,
    for each track in the order of the answer, one artist lookup followed by
    one biography request, and nothing else: no lookup is shared between two
    tracks of the same artist. *)
Theorem fetch_makes_two_calls_per_track
    (E : Env) (time_range : string) (s s' : state E)
    (items : list track) (w : World E) (df : DataFrame) :
  sp_current_user_top_tracks E 20 time_range (world s) = (Ok items, w) ->
  fetch_tracks E time_range s = (Ok df, s') ->
  df <> [] ->
  length df = length items /\
  trace s' = trace s ++ CallTopTracks 20 time_range :: flat_map (calls_of_track E) items.
Proof.
  intros Htop Hrun Hrows.
  rewrite (fetch_tracks_items E time_range s items w Htop) in Hrun.
  destruct (enrich_loop E items [] (log E (CallTopTracks 20 time_range) w s))
    as [[rows|e] s1] eqn:Hloop.
  - injection Hrun as <- <-. split.
    + destruct (enrich_loop_cases E items [] (log E (CallTopTracks 20 time_range) w s))
        as [[new [s2 [Hloop2 [Hall _]]]] | [e [it [s0 [s2 [Hloop2 _]]]]]];
        rewrite Hloop in Hloop2; [|discriminate].
      injection Hloop2 as -> _. symmetry. exact (Forall2_length _ _ _ Hall).
    + rewrite (enrich_loop_trace E _ _ _ _ _ Hloop). cbn. now rewrite <- app_assoc.
  - injection Hrun as <- _. now destruct Hrows.
Qed.

Lemma fetch_makes_two_calls_per_track_witness :
  exists df s',
    fetch_tracks Demo.env "short_term" Demo.start = (Ok df, s') /\
    length df = 2 /\
    trace s' =
      [CallTopTracks 20 "short_term";
       CallArtist "a1"; CallGet (lastfm_url Demo.env "Artist One");
       CallArtist "a2"; CallGet (lastfm_url Demo.env "Artist Two")].
Proof.
  eexists. eexists. split; [reflexivity |].
  apply (fetch_makes_two_calls_per_track Demo.env "short_term" Demo.start _
           [Demo.song_one; Demo.song_two] 1%nat _ eq_refl eq_refl).
  discriminate.
Defined.

(** X3. One call of the country helper makes exactly one request, to the
    artist.getinfo address of the artist, whatever comes back; the country it
    returns is decided by the answer to that request alone, so two calls that
    receive the same answer return the same country. *)
Theorem country_helper_makes_one_request
    (E : Env) (artist_name : string) (s1 s2 : state E) :
  (exists country,
     get_artist_country_lastfm E artist_name s1 =
       (Ok country,
        Build_state E (snd (requests_get_json E (lastfm_url E artist_name) (world s1)))
                      (trace s1 ++ [CallGet (lastfm_url E artist_name)]))) /\
  (fst (requests_get_json E (lastfm_url E artist_name) (world s1)) =
   fst (requests_get_json E (lastfm_url E artist_name) (world s2)) ->
   fst (get_artist_country_lastfm E artist_name s1) =
   fst (get_artist_country_lastfm E artist_name s2)).
Proof.
  rewrite !get_artist_country_lastfm_run. split.
  - eexists. reflexivity.
  - cbn. now intros ->.
Qed.

Lemma country_helper_makes_one_request_witness :
  fst (get_artist_country_lastfm Demo.env "Artist One" Demo.start) =
  fst (get_artist_country_lastfm Demo.env "Artist One"
         (Build_state Demo.env 7%nat [CallArtist "a1"])).
Proof.
  exact (proj2 (country_helper_makes_one_request Demo.env "Artist One" Demo.start
                  (Build_state Demo.env 7%nat [CallArtist "a1"])) eq_refl).
Defined.

(** ** Hidden gems *)

Lemma is_hidden_gem_spec (r : row) :
  is_hidden_gem r = true <->
  (Popularity r < 40)%Z /\ Explicit r = "Clean" /\ Genre r <> "Unknown".
Proof.
  unfold is_hidden_gem.
  rewrite !andb_true_iff, negb_true_iff, Z.ltb_lt, String.eqb_eq, String.eqb_neq.
  tauto.
Qed.


(** X5. From the raw track to the hidden gems: the row enrichment builds for
    a track is a hidden gem exactly when the popularity of the track is below
    40, the track is not explicit, and the artist has a first genre other than
    the word Unknown. A track whose artist lists no genre is never one. *)
Theorem enriched_track_is_hidden_gem
    (E : Env) (item : track) (first_artist : artist_ref) (others : list artist_ref)
    (info : artist_info) (w1 : World E) (s : state E) :
  artists item = first_artist :: others ->
  sp_artist E (artist_id first_artist) (world s) = (Ok info, w1) ->
  exists r s',
    enrich E item s = (Ok r, s') /\
    (is_hidden_gem r = true <->
     (popularity item < 40)%Z /\ explicit item = false /\
     exists g gs, genres info = Some (g :: gs) /\ g <> "Unknown").
Proof.
  intros Hartists Hinfo.
  rewrite (enrich_ok E item first_artist others info w1 s Hartists Hinfo).
  eexists. eexists. split; [reflexivity |].
  rewrite is_hidden_gem_spec. cbn.
  destruct (explicit item), (genres info) as [[|g gs]|]; split.
  all: try (intros [_ [H _]]; discriminate H).
  all: try (intros [_ [_ H]]; now destruct H).
  all: try (intros [_ [H _]]; discriminate H).
  all: try (intros [_ [_ [g' [gs' [H _]]]]]; discriminate H).
  - intros [Hpop [_ Hg]]. repeat split; try assumption. now exists g, gs.
  - intros [Hpop [_ [g' [gs' [Hsome Hg]]]]]. injection Hsome as <- <-.
    repeat split; assumption.
Qed.

(** Song Two of the demo has popularity 35 and an artist without genre. *)
Lemma enriched_track_is_hidden_gem_witness :
  exists r s',
    enrich Demo.env Demo.song_two Demo.start = (Ok r, s') /\
    is_hidden_gem r = false.
Proof.
  destruct (enriched_track_is_hidden_gem Demo.env Demo.song_two Demo.artist_two []
              {| genres := Some [] |} 1%nat Demo.start eq_refl eq_refl)
    as [r [s' [Hrun Hiff]]].
  exists r, s'. split; [exact Hrun |].
  destruct (is_hidden_gem r); [|reflexivity].
  destruct (proj1 Hiff eq_refl) as [_ [Hexplicit _]]. discriminate Hexplicit.
Defined.

(** ** A track without artist *)

Lemma enrich_ok_has_artist (E : Env) (item : track) (s s' : state E) (r : row) :
  enrich E item s = (Ok r, s') -> artists item <> [].
Proof.
  intros Hrun Hnone. unfold enrich, bind, lift in Hrun. rewrite Hnone in Hrun.
  discriminate Hrun.
Qed.

Lemma enrich_loop_ok_has_artists
    (E : Env) (items : list track) (rows out : list row) (s s' : state E) :
  enrich_loop E items rows s = (Ok out, s') ->
  forall item, In item items -> artists item <> [].
Proof.
  revert rows s. induction items as [|it rest IH]; intros rows s Hloop item Hin.
  - destruct Hin.
  - rewrite enrich_loop_cons in Hloop.
    destruct (enrich E it s) as [[r|e] s1] eqn:Hit; [|discriminate].
    destruct Hin as [<- | Hin].
    + exact (enrich_ok_has_artist E _ _ _ _ Hit).
    + exact (IH _ _ Hloop item Hin).
Qed.

(** X2. When some track of the answer has an empty list of artists, the
    fetch yields the empty table and reports an error, whatever the other
    tracks are: the rows of the tracks before it are lost. *)
Theorem track_without_artist_empties_the_table
    (E : Env) (time_range : string) (s : state E)
    (items : list track) (w : World E) (item : track) :
  sp_current_user_top_tracks E 20 time_range (world s) = (Ok items, w) ->
  In item items ->
  artists item = [] ->
  exists e s1,
    fetch_tracks E time_range s =
      (Ok [], log E (StError ("Failed to fetch data: " +:+ exn_msg e)) (world s1) s1).
Proof.
  intros Htop Hin Hnone.
  rewrite (fetch_tracks_items E time_range s items w Htop).
  destruct (enrich_loop E items [] (log E (CallTopTracks 20 time_range) w s))
    as [[rows|e] s1] eqn:Hloop.
  - destruct (enrich_loop_ok_has_artists E _ _ _ _ _ Hloop item Hin Hnone).
  - now exists e, s1.
Qed.

Lemma track_without_artist_witness :
  fst (fetch_tracks DemoApp.env_with_local_file "short_term"
         (Build_state DemoApp.env_with_local_file 0%nat [])) = Ok [].
Proof.
  destruct (track_without_artist_empties_the_table DemoApp.env_with_local_file
              "short_term" (Build_state DemoApp.env_with_local_file 0%nat [])
              [Demo.song_one; DemoApp.local_file] 1%nat DemoApp.local_file
              eq_refl (or_intror (or_introl eq_refl)) eq_refl)
    as [e [s1 Hrun]].
  rewrite Hrun. reflexivity.
Defined.

Example local_file_error_message :
  trace (snd (fetch_tracks DemoApp.env_with_local_file "short_term"
                (Build_state DemoApp.env_with_local_file 0%nat []))) =
  [CallTopTracks 20 "short_term"; CallArtist "a1";
   CallGet (lastfm_url DemoApp.env_with_local_file "Artist One");
   StError "Failed to fetch data: list index out of range"].
Proof. reflexivity. Qed.

(** ** The address of the embedded player *)

Lemma replace_from_skip (old new pre s : string) :
  replace_from (String.length pre) old new (pre +:+ s) = replace_from 0 old new s.
Proof. induction pre as [|c pre IH]; [reflexivity | exact IH]. Qed.

Lemma replace_absent (old new s : string) :
  contains old s = false -> replace_from 0 old new s = s.
Proof.
  induction s as [|c s IH]; [reflexivity |].
  cbn [contains replace_from]. intros H. apply orb_false_iff in H as [Hhere Hlater].
  rewrite Hhere. f_equal. exact (IH Hlater).
Qed.

Lemma replace_at_start (old new rest : string) :
  old <> "" ->
  contains old rest = false ->
  py_replace old new (old +:+ rest) = new +:+ rest.
Proof.
  intros Hold Hrest. destruct old as [|c old]; [congruence |].
  assert (Hhere : String.prefix (String c old) (String c (old +:+ rest)) = true).
  { apply prefix_occurs. now exists rest. }
  unfold py_replace. change (String c old +:+ rest) with (String c (old +:+ rest)).
  assert (Hlen : String.length (String c old) - 1 = String.length old)
    by (cbn [String.length]; lia).
  cbn [replace_from]. rewrite Hhere, Hlen.
  now rewrite replace_from_skip, replace_absent.
Qed.

(** X6. The address of a playlist, open.spotify.com/playlist/ followed by an
    id, becomes open.spotify.com/embed/playlist/ followed by the same id; an
    address in which the playlist prefix does not occur is left as it is. *)
Theorem embed_url_rewrites_the_prefix :
  (forall id,
     ~ occurs_in "https://open.spotify.com/playlist/" id ->
     embed_url ("https://open.spotify.com/playlist/" +:+ id) =
     "https://open.spotify.com/embed/playlist/" +:+ id) /\
  (forall url,
     ~ occurs_in "https://open.spotify.com/playlist/" url ->
     embed_url url = url).
Proof.
  assert (Habsent : forall s,
            ~ occurs_in "https://open.spotify.com/playlist/" s ->
            contains "https://open.spotify.com/playlist/" s = false).
  { intros s Hs. destruct (contains _ s) eqn:Hc; [|reflexivity].
    destruct Hs. now apply contains_occurs. }
  split.
  - intros id Hid. unfold embed_url.
    apply replace_at_start; [discriminate | now apply Habsent].
  - intros url Hurl. unfold embed_url, py_replace.
    apply replace_absent. now apply Habsent.
Qed.

Lemma embed_url_witness :
  embed_url "https://open.spotify.com/playlist/37i9dQZF1DX" =
    "https://open.spotify.com/embed/playlist/37i9dQZF1DX" /\
  embed_url "https://example.org/playlist/1" = "https://example.org/playlist/1".
Proof.
  split.
  - apply (proj1 embed_url_rewrites_the_prefix "37i9dQZF1DX").
    intros Hocc. apply contains_occurs in Hocc. discriminate Hocc.
  - apply (proj2 embed_url_rewrites_the_prefix "https://example.org/playlist/1").
    intros Hocc. apply contains_occurs in Hocc. discriminate Hocc.
Defined.

(** ** Authentication *)

(** X7. When the profile request raises, the script shows the message after
    the words Authentication failed and stops: no top-tracks request is made
    and the session state is not touched. A profile without image does not
    make the request fail. *)
Theorem failed_authentication_stops_the_script
    (E : Env) (C : Client E) (time_range : string) (st : app_state E) :
  (forall e w,
     sp_current_user C (app_world st) = (Raise e, w) ->
     app E C time_range st =
       (Stopped,
        record_action E (Core (StError ("Authentication failed: " +:+ exn_msg e))) w
          (record_action E CallCurrentUser w st))) /\
  (forall user w,
     sp_current_user C (app_world st) = (Ok user, w) ->
     user_images user = [] ->
     authenticate E C st =
       (Next user, record_action E (StProfileImage "") w
                     (record_action E CallCurrentUser w st))).
Proof.
  split.
  - intros e w Huser. unfold app, and_then, authenticate, call_current_user.
    now rewrite Huser.
  - intros user w Huser Himages. unfold authenticate, call_current_user, and_then.
    rewrite Huser. cbn. now rewrite Himages.
Qed.

Lemma failed_authentication_witness :
  app Demo.env (DemoApp.client true true) "short_term" (DemoApp.fresh 1000) =
    (Stopped,
     Build_app_state Demo.env 1001%nat
       [CallCurrentUser;
        Core (StError "Authentication failed: http status: 401, The access token expired")]
       None).
Proof.
  exact (proj1 (failed_authentication_stops_the_script Demo.env (DemoApp.client true true)
                  "short_term" (DemoApp.fresh 1000))
           (Exception "SpotifyException" "http status: 401, The access token expired")
           1001%nat eq_refl).
Defined.

(** ** The playlist builder *)

Lemma searches_app (log1 log2 : list action) :
  searches (log1 ++ log2) = searches log1 ++ searches log2.
Proof.
  induction log1 as [|a log1 IH]; [reflexivity |].
  destruct a; cbn; now rewrite ?IH.
Qed.


Lemma playlists_created_app (log1 log2 : list action) :
  playlists_created (log1 ++ log2) = playlists_created log1 ++ playlists_created log2.
Proof.
  induction log1 as [|a log1 IH]; [reflexivity |].
  destruct a; cbn; now rewrite ?IH.
Qed.

Lemma playlists_created_of_searches (qs : list string) :
  playlists_created (map CallSearch qs) = [].
Proof. induction qs as [|q qs IH]; [reflexivity | exact IH]. Qed.

Lemma tables_shown_app (log1 log2 : list action) :
  tables_shown (log1 ++ log2) = tables_shown log1 ++ tables_shown log2.
Proof.
  induction log1 as [|a log1 IH]; [reflexivity |].
  destruct a; cbn; now rewrite ?IH.
Qed.

Lemma builder_actions_show_no_table (log : list action) :
  Forall builder_action log -> tables_shown log = [].
Proof.
  induction 1 as [|a log Ha _ IH]; [reflexivity |].
  destruct a; cbn in *; solve [exact IH | destruct Ha].
Qed.

Lemma searches_are_builder_actions (qs : list string) :
  Forall builder_action (map CallSearch qs).
Proof. induction qs; constructor; [exact I | assumption]. Qed.

Section PlaylistBuilder.

Variable E : Env.
Variable C : Client E.

(** The search loop makes one search per row, in order, until one raises;
    it touches neither the session nor anything else. *)
Lemma search_uris_cases (rows : list row) (acc : list string) (st : app_state E)
    (ctrl : control (list string)) (st' : app_state E) :
  search_uris E C rows acc st = (ctrl, st') ->
  exists done,
    app_log st' = app_log st ++ map CallSearch (map query done) /\
    session st' = session st /\
    ((exists uris, ctrl = Next (acc ++ uris) /\ done = rows /\ length uris <= length rows)
     \/ (exists e after, ctrl = Fail e /\ rows = done ++ after /\ done <> [])).
Proof.
  revert acc st. induction rows as [|r rest IH]; intros acc st.
  - cbn. intros H. injection H as <- <-. exists []. cbn. rewrite !app_nil_r.
    split; [reflexivity | split; [reflexivity | left]].
    exists []. rewrite app_nil_r. repeat split. cbn. lia.
  - cbn [search_uris]. unfold and_then, call_search.
    destruct (sp_search C (Track_Name r +:+ " " +:+ Artist r) (app_world st))
      as [[items|e] w] eqn:Hsearch; cbn [of_result].
    + intros Hrest. destruct (IH _ _ Hrest) as [done [Hlog [Hsession Hcases]]].
      cbn in Hlog, Hsession.
      destruct Hcases as [[uris [-> [-> Hlen]]] | [e [after [-> [-> Hdone]]]]].
      * exists (r :: rest). split; [|split; [exact Hsession | left]].
        -- rewrite Hlog, <- app_assoc. reflexivity.
        -- destruct items as [|uri items].
           ++ exists uris. repeat split. cbn. lia.
           ++ exists (uri :: uris). rewrite <- app_assoc. repeat split. cbn. lia.
      * exists (r :: done). split; [|split; [exact Hsession | right]].
        -- rewrite Hlog, <- app_assoc. reflexivity.
        -- exists e, after. repeat split. discriminate.
    + intros H. injection H as <- <-. exists [r]. cbn.
      split; [reflexivity | split; [reflexivity | right]].
      exists e, rest. repeat split. discriminate.
Qed.

(** What the builder does while no playlist is recorded. *)
Lemma playlist_builder_pending (user : user_profile) (df : DataFrame) (st : app_state E) :
  playlist_pending st ->
  playlist_builder E C user df st =
  match search_uris E C df [] (initialised st) with
  | (Next [], st1) => (Next tt, st1)
  | (Next (u :: us), st1) =>
      let st2 := record_action E (StButton "+ Create Spotify Playlist") (app_world st1) st1 in
      if st_button C "+ Create Spotify Playlist" (app_world st1) then
        match sp_user_playlist_create C (user_id user) "My Favorite Tracks" false
                "Auto-generated from Spotify Insight Dashboard" (app_world st1) with
        | (Raise e, w3) =>
            (Fail e,
             record_action E
               (CallPlaylistCreate (user_id user) "My Favorite Tracks" false
                  "Auto-generated from Spotify Insight Dashboard") w3 st2)
        | (Ok created, w3) =>
            let st3 :=
              record_action E
                (CallPlaylistCreate (user_id user) "My Favorite Tracks" false
                   "Auto-generated from Spotify Insight Dashboard") w3 st2 in
            match sp_playlist_add_items C (pl_id created) (u :: us) w3 with
            | (Raise e, w4) =>
                (Fail e,
                 record_action E (CallPlaylistAddItems (pl_id created) (u :: us)) w4 st3)
            | (Ok _, w4) =>
                let st5 :=
                  {| app_world := w4;
                     app_log := app_log st3 ++ [CallPlaylistAddItems (pl_id created) (u :: us)];
                     session := Some {| playlist_created := true;
                                        playlist_url := Some (pl_spotify_url created) |} |} in
                match pl_spotify_url created with
                | EmptyString => (Next tt, st5)
                | String c rest =>
                    (Next tt,
                     record_action E (StPlayer (embed_url (String c rest) +:+ "?theme=0"))
                       w4 st5)
                end
            end
        end
      else (Next tt, st2)
  | (Halt, st1) => (Halt, st1)
  | (Fail e, st1) => (Fail e, st1)
  end.
Proof.
  intros Hpending.
  assert (Hstart : forall k : session_state -> Script E unit,
            (forall ss, session (initialised st) = Some ss -> playlist_created ss = false) /\
            and_then
              (fun st0 : app_state E =>
                 match session st0 with
                 | None => set_session {| playlist_created := false; playlist_url := None |} st0
                 | Some _ => (Next tt, st0)
                 end)
              (fun _ => and_then get_session k) st
            = match session (initialised st) with
              | Some ss => k ss (initialised st)
              | None => (Halt, st)
              end).
  { intros k. unfold playlist_pending, initialised, and_then, set_session, get_session in *.
    destruct st as [w lg [ss|]]; cbn in *.
    - split; [intros ss' H; now injection H as <- | reflexivity].
    - split; [intros ss' H; now injection H as <- | reflexivity]. }
  unfold playlist_builder.
  destruct (Hstart (fun ss =>
              and_then
                (if playlist_created ss then next tt
                 else and_then (search_uris E C df [])
                        (fun track_uris =>
                           match track_uris with
                           | [] => next tt
                           | _ :: _ =>
                               and_then (button E C "+ Create Spotify Playlist")
                                 (fun clicked =>
                                    if clicked then
                                      and_then
                                        (call_playlist_create E C (user_id user)
                                           "My Favorite Tracks" false
                                           "Auto-generated from Spotify Insight Dashboard")
                                        (fun created =>
                                           and_then
                                             (call_playlist_add_items E C (pl_id created)
                                                track_uris)
                                             (fun _ =>
                                                set_session
                                                  {| playlist_created := true;
                                                     playlist_url :=
                                                       Some (pl_spotify_url created) |}))
                                    else next tt)
                           end))
                (fun _ =>
                   and_then get_session
                     (fun ss0 =>
                        match playlist_created ss0, playlist_url ss0 with
                        | true, Some (String c rest) =>
                            show (StPlayer (embed_url (String c rest) +:+ "?theme=0"))
                        | _, _ => next tt
                        end))))
    as [Hfalse Hrun].
  rewrite Hrun. clear Hrun Hstart.
  destruct (session (initialised st)) as [ss|] eqn:Hss; [|discriminate Hss].
  rewrite (Hfalse ss eq_refl).
  unfold and_then at 1 2.
  destruct (search_uris E C df [] (initialised st)) as [[uris| |e] st1] eqn:Hsearch;
    [| reflexivity | reflexivity].
  destruct (search_uris_cases _ _ _ _ _ Hsearch) as [done [_ [Hsession _]]].
  rewrite Hss in Hsession.
  destruct uris as [|u us].
  - unfold next, and_then, get_session. rewrite Hsession, (Hfalse ss eq_refl). reflexivity.
  - unfold and_then, button. cbn [fst snd].
    destruct (st_button C "+ Create Spotify Playlist" (app_world st1)).
    + unfold call_playlist_create.
      destruct (sp_user_playlist_create C (user_id user) "My Favorite Tracks" false
                  "Auto-generated from Spotify Insight Dashboard"
                  (app_world (record_action E (StButton "+ Create Spotify Playlist")
                                (app_world st1) st1)))
        as [[created|e] w3] eqn:Hcreate; cbn in Hcreate; rewrite Hcreate; cbn [of_result];
        [|reflexivity].
      unfold call_playlist_add_items. cbn [app_world record_action].
      destruct (sp_playlist_add_items C (pl_id created) (u :: us) w3) as [[[]|e] w4];
        cbn [of_result]; [|reflexivity].
      unfold set_session, get_session. cbn.
      destruct (pl_spotify_url created); reflexivity.
    + unfold next, get_session. cbn. rewrite Hsession, (Hfalse ss eq_refl). reflexivity.
Qed.

End PlaylistBuilder.

Section PlaylistBuilderFacts.

Variable E : Env.
Variable C : Client E.

(** What the builder does once a playlist is recorded. *)
Lemma playlist_builder_recorded (user : user_profile) (df : DataFrame)
    (st : app_state E) (ss : session_state) :
  session st = Some ss ->
  playlist_created ss = true ->
  playlist_builder E C user df st =
    (Next tt,
     match playlist_url ss with
     | Some (String c rest) =>
         record_action E (StPlayer (embed_url (String c rest) +:+ "?theme=0"))
           (app_world st) st
     | _ => st
     end).
Proof.
  intros Hsession Hcreated.
  unfold playlist_builder, and_then, get_session, next.
  repeat first [rewrite Hsession | rewrite Hcreated | progress cbn -[embed_url]].
  destruct (playlist_url ss) as [[|c rest]|]; reflexivity.
Qed.

Lemma initialised_log (st : app_state E) : app_log (initialised st) = app_log st.
Proof. reflexivity. Qed.

(** The log of a run of the builder while no playlist is recorded: the
    searches of the rows reached, then what follows them. *)
Lemma playlist_builder_pending_log (user : user_profile) (df : DataFrame)
    (st st' : app_state E) (ctrl : control unit) :
  playlist_pending st ->
  playlist_builder E C user df st = (ctrl, st') ->
  exists done extras,
    app_log st' = app_log st ++ map CallSearch (map query done) ++ extras /\
    Forall builder_action extras /\
    searches extras = [] /\
    (exists after, df = done ++ after) /\
    (ctrl = Next tt -> done = df) /\
    ctrl <> Halt.
Proof.
  intros Hpending Hrun. rewrite (playlist_builder_pending E C user df st Hpending) in Hrun.
  destruct (search_uris E C df [] (initialised st)) as [[uris| |e] st1] eqn:Hsearch;
    destruct (search_uris_cases E C _ _ _ _ _ Hsearch)
      as [done [Hlog [_ [[uris0 [Huris [-> _]]] | [e0 [after [Hfail [Hdf _]]]]]]]];
    try discriminate; rewrite initialised_log in Hlog.
  - assert (Hwhole : exists after, df = df ++ after) by (exists []; now rewrite app_nil_r).
    destruct uris as [|u us].
    + injection Hrun as <- <-. exists df, []. rewrite app_nil_r.
      repeat split; try assumption; try constructor; discriminate.
    + cbv zeta in Hrun.
      destruct (st_button C "+ Create Spotify Playlist" (app_world st1)).
      * destruct (sp_user_playlist_create C (user_id user) "My Favorite Tracks" false
                    "Auto-generated from Spotify Insight Dashboard" (app_world st1))
          as [[created|e] w3].
        -- destruct (sp_playlist_add_items C (pl_id created) (u :: us) w3) as [[[]|e] w4].
           ++ destruct (pl_spotify_url created) as [|c rest];
                injection Hrun as <- <-; cbn [app_log record_action]; rewrite Hlog.
              ** exists df,
                   [StButton "+ Create Spotify Playlist";
                    CallPlaylistCreate (user_id user) "My Favorite Tracks" false
                      "Auto-generated from Spotify Insight Dashboard";
                    CallPlaylistAddItems (pl_id created) (u :: us)].
                 rewrite <- !app_assoc.
                 repeat split; try assumption; try discriminate; repeat constructor.
              ** exists df,
                   [StButton "+ Create Spotify Playlist";
                    CallPlaylistCreate (user_id user) "My Favorite Tracks" false
                      "Auto-generated from Spotify Insight Dashboard";
                    CallPlaylistAddItems (pl_id created) (u :: us);
                    StPlayer (embed_url (String c rest) +:+ "?theme=0")].
                 rewrite <- !app_assoc.
                 repeat split; try assumption; try discriminate; repeat constructor.
           ++ injection Hrun as <- <-. cbn [app_log record_action]. rewrite Hlog.
              exists df,
                [StButton "+ Create Spotify Playlist";
                 CallPlaylistCreate (user_id user) "My Favorite Tracks" false
                   "Auto-generated from Spotify Insight Dashboard";
                 CallPlaylistAddItems (pl_id created) (u :: us)].
              rewrite <- !app_assoc.
              repeat split; try assumption; try discriminate; repeat constructor.
        -- injection Hrun as <- <-. cbn [app_log record_action]. rewrite Hlog.
           exists df,
             [StButton "+ Create Spotify Playlist";
              CallPlaylistCreate (user_id user) "My Favorite Tracks" false
                "Auto-generated from Spotify Insight Dashboard"].
           rewrite <- !app_assoc.
           repeat split; try assumption; try discriminate; repeat constructor.
      * injection Hrun as <- <-. cbn [app_log record_action]. rewrite Hlog.
        exists df, [StButton "+ Create Spotify Playlist"].
        rewrite <- !app_assoc.
        repeat split; try assumption; try discriminate; repeat constructor.
  - injection Hfail as <-. injection Hrun as <- <-. exists done, [].
    rewrite app_nil_r. repeat split; try assumption; try constructor; try discriminate.
    now exists after.
Qed.

(** In every case the builder only searches, creates, adds, shows its button
    and its player, and it never stops the script. *)
Lemma playlist_builder_log (user : user_profile) (df : DataFrame)
    (st st' : app_state E) (ctrl : control unit) :
  playlist_builder E C user df st = (ctrl, st') ->
  exists new,
    app_log st' = app_log st ++ new /\ Forall builder_action new /\ ctrl <> Halt.
Proof.
  intros Hrun.
  assert (Hcase : playlist_pending st \/
                  exists ss, session st = Some ss /\ playlist_created ss = true).
  { unfold playlist_pending. destruct (session st) as [ss|]; [|now left].
    destruct (playlist_created ss) eqn:Hc; [right; now exists ss | now left]. }
  destruct Hcase as [Hpending | [ss [Hsession Hcreated]]].
  - destruct (playlist_builder_pending_log user df st st' ctrl Hpending Hrun)
      as [done [extras [Hlog [Hact _]]]].
    exists (map CallSearch (map query done) ++ extras).
    split; [exact Hlog | split].
    + apply Forall_app. split; [apply searches_are_builder_actions | exact Hact].
    + destruct (playlist_builder_pending_log user df st st' ctrl Hpending Hrun)
        as [_ [_ [_ [_ [_ [_ [_ H]]]]]]]. exact H.
  - rewrite (playlist_builder_recorded user df st ss Hsession Hcreated) in Hrun.
    injection Hrun as <- <-.
    destruct (playlist_url ss) as [[|c rest]|].
    + exists []. rewrite app_nil_r. repeat split; [constructor | discriminate].
    + exists [StPlayer (embed_url (String c rest) +:+ "?theme=0")].
      repeat split; [repeat constructor | discriminate].
    + exists []. rewrite app_nil_r. repeat split; [constructor | discriminate].
Qed.

End PlaylistBuilderFacts.

(** X8. Once the session records a playlist the builder does nothing on the
    network: no search, no creation, no button; it only shows the player of
    the recorded address, when there is one. *)
Theorem recorded_playlist_is_not_rebuilt
    (E : Env) (C : Client E) (user : user_profile) (df : DataFrame)
    (st : app_state E) (ss : session_state) :
  session st = Some ss ->
  playlist_created ss = true ->
  exists st',
    playlist_builder E C user df st = (Next tt, st') /\
    app_world st' = app_world st /\
    session st' = session st /\
    app_log st' =
      app_log st ++
      match playlist_url ss with
      | Some (String c rest) => [StPlayer (embed_url (String c rest) +:+ "?theme=0")]
      | _ => []
      end.
Proof.
  intros Hsession Hcreated.
  rewrite (playlist_builder_recorded E C user df st ss Hsession Hcreated).
  eexists. split; [reflexivity |].
  destruct (playlist_url ss) as [[|c rest]|]; cbn; now rewrite ?app_nil_r.
Qed.

Lemma recorded_playlist_witness :
  exists st',
    playlist_builder Demo.env (DemoApp.client true true) DemoApp.listener
      (Demo.sample_table [60; 35]%Z)
      (Build_app_state Demo.env 5%nat []
         (Some {| playlist_created := true;
                  playlist_url := Some "https://open.spotify.com/playlist/pl1" |})) =
    (Next tt, st') /\
    app_world st' = 5%nat /\
    app_log st' = [StPlayer "https://open.spotify.com/embed/playlist/pl1?theme=0"].
Proof.
  destruct (recorded_playlist_is_not_rebuilt Demo.env (DemoApp.client true true)
              DemoApp.listener (Demo.sample_table [60; 35]%Z)
              (Build_app_state Demo.env 5%nat []
                 (Some {| playlist_created := true;
                          playlist_url := Some "https://open.spotify.com/playlist/pl1" |}))
              _ eq_refl eq_refl) as [st' [Hrun [Hworld [_ Hlog]]]].
  exists st'. split; [exact Hrun | split; [exact Hworld |]].
  rewrite Hlog. reflexivity.
Defined.



Lemma search_without_result (E : Env) (C : Client E)
    (rows : list row) (acc : list string) (st : app_state E) :
  (forall q w, fst (sp_search C q w) = Ok []) ->
  exists st', search_uris E C rows acc st = (Next acc, st').
Proof.
  intros Hnone. revert st. induction rows as [|r rest IH]; intros st.
  - now exists st.
  - cbn [search_uris]. unfold and_then, call_search.
    pose proof (Hnone (Track_Name r +:+ " " +:+ Artist r) (app_world st)) as Hq.
    destruct (sp_search C (Track_Name r +:+ " " +:+ Artist r) (app_world st)) as [res w].
    cbn in Hq. subst res. cbn [of_result]. apply IH.
Qed.

(** X10. While no playlist is recorded, a run in which the button is not
    pressed, or in which no search finds a track, creates no playlist and
    leaves the session without one. *)
Theorem no_click_no_playlist
    (E : Env) (C : Client E) (user : user_profile) (df : DataFrame)
    (st st' : app_state E) (ctrl : control unit) :
  playlist_pending st ->
  (forall w, st_button C "+ Create Spotify Playlist" w = false) \/
  (forall q w, fst (sp_search C q w) = Ok []) ->
  playlist_builder E C user df st = (ctrl, st') ->
  playlists_created (app_log st') = playlists_created (app_log st) /\
  playlist_pending st'.
Proof.
  intros Hpending Hidle Hrun.
  assert (Hinit : forall ss, session (initialised st) = Some ss ->
                             playlist_created ss = false).
  { unfold playlist_pending, initialised in *. cbn.
    destruct (session st) as [ss0|]; intros ss H; injection H as <-;
      [exact Hpending | reflexivity]. }
  rewrite (playlist_builder_pending E C user df st Hpending) in Hrun.
  destruct (search_uris E C df [] (initialised st)) as [[uris| |e] st1] eqn:Hsearch;
    destruct (search_uris_cases E C _ _ _ _ _ Hsearch)
      as [done [Hlog [Hsession Hcases]]];
    rewrite initialised_log in Hlog.
  - assert (Hst1 : playlists_created (app_log st1) = playlists_created (app_log st) /\
                   playlist_pending st1).
    { split.
      - now rewrite Hlog, playlists_created_app, playlists_created_of_searches, app_nil_r.
      - unfold playlist_pending. rewrite Hsession.
        destruct (session (initialised st)) as [ss|] eqn:Hss; [|exact I].
        exact (Hinit ss eq_refl). }
    destruct uris as [|u us]; [injection Hrun as <- <-; exact Hst1 |].
    destruct Hidle as [Hno_click | Hno_result].
    + cbv zeta in Hrun. rewrite Hno_click in Hrun. injection Hrun as <- <-.
      destruct Hst1 as [Hcreated Hpend]. split.
      * cbn [app_log record_action]. rewrite playlists_created_app, Hcreated.
        cbn. now rewrite app_nil_r.
      * exact Hpend.
    + destruct (search_without_result E C df [] (initialised st) Hno_result) as [st0 H0].
      rewrite H0 in Hsearch. discriminate Hsearch.
  - injection Hrun as <- <-. split.
    + now rewrite Hlog, playlists_created_app, playlists_created_of_searches, app_nil_r.
    + unfold playlist_pending. rewrite Hsession.
      destruct (session (initialised st)) as [ss|] eqn:Hss; [|exact I].
      exact (Hinit ss eq_refl).
  - injection Hrun as <- <-. split.
    + now rewrite Hlog, playlists_created_app, playlists_created_of_searches, app_nil_r.
    + unfold playlist_pending. rewrite Hsession.
      destruct (session (initialised st)) as [ss|] eqn:Hss; [|exact I].
      exact (Hinit ss eq_refl).
Qed.

Lemma no_click_no_playlist_witness :
  exists st',
    playlist_builder Demo.env (DemoApp.client false true) DemoApp.listener
      (Demo.sample_table [60; 35]%Z) (DemoApp.fresh 0) = (Next tt, st') /\
    playlists_created (app_log st') = [] /\
    playlist_pending st'.
Proof.
  pose (st' := snd (playlist_builder Demo.env (DemoApp.client false true)
                      DemoApp.listener (Demo.sample_table [60; 35]%Z) (DemoApp.fresh 0))).
  exists st'. split; [reflexivity |].
  exact (no_click_no_playlist Demo.env (DemoApp.client false true) DemoApp.listener
           (Demo.sample_table [60; 35]%Z) (DemoApp.fresh 0) st' (Next tt)
           I (or_introl (fun _ => eq_refl)) eq_refl).
Defined.

Section PlaylistCreation.

Variable E : Env.
Variable C : Client E.

(** What the builder does once the searches have found tracks and the
    button is pressed. *)
Lemma playlist_builder_pressed (user : user_profile) (df : DataFrame)
    (st st1 : app_state E) (u : string) (us : list string) :
  playlist_pending st ->
  search_uris E C df [] (initialised st) = (Next (u :: us), st1) ->
  st_button C "+ Create Spotify Playlist" (app_world st1) = true ->
  playlist_pending st1 /\
  playlists_created (app_log st1) = playlists_created (app_log st) /\
  playlist_builder E C user df st =
    match sp_user_playlist_create C (user_id user) "My Favorite Tracks" false
            "Auto-generated from Spotify Insight Dashboard" (app_world st1) with
    | (Raise e, w3) =>
        (Fail e,
         record_action E
           (CallPlaylistCreate (user_id user) "My Favorite Tracks" false
              "Auto-generated from Spotify Insight Dashboard") w3
           (record_action E (StButton "+ Create Spotify Playlist") (app_world st1) st1))
    | (Ok created, w3) =>
        let st3 :=
          record_action E
            (CallPlaylistCreate (user_id user) "My Favorite Tracks" false
               "Auto-generated from Spotify Insight Dashboard") w3
            (record_action E (StButton "+ Create Spotify Playlist") (app_world st1) st1) in
        match sp_playlist_add_items C (pl_id created) (u :: us) w3 with
        | (Raise e, w4) =>
            (Fail e,
             record_action E (CallPlaylistAddItems (pl_id created) (u :: us)) w4 st3)
        | (Ok _, w4) =>
            let st5 :=
              {| app_world := w4;
                 app_log := app_log st3 ++ [CallPlaylistAddItems (pl_id created) (u :: us)];
                 session := Some {| playlist_created := true;
                                    playlist_url := Some (pl_spotify_url created) |} |} in
            match pl_spotify_url created with
            | EmptyString => (Next tt, st5)
            | String c rest =>
                (Next tt,
                 record_action E (StPlayer (embed_url (String c rest) +:+ "?theme=0"))
                   w4 st5)
            end
        end
    end.
Proof.
  intros Hpending Hsearch Hclick.
  destruct (search_uris_cases E C _ _ _ _ _ Hsearch) as [done [Hlog [Hsession _]]].
  rewrite initialised_log in Hlog. split; [|split].
  - unfold playlist_pending in *. rewrite Hsession. cbn.
    destruct (session st); [exact Hpending | reflexivity].
  - now rewrite Hlog, playlists_created_app, playlists_created_of_searches, app_nil_r.
  - rewrite (playlist_builder_pending E C user df st Hpending), Hsearch.
    cbv zeta. now rewrite Hclick.
Qed.

End PlaylistCreation.

(** X11. When the playlist has been created and adding the tracks raises, the
    exception leaves the builder and the session still records no playlist:
    the playlist exists on the account, and the next run offers to create it
    again. *)
Theorem failed_add_leaves_playlist_unrecorded
    (E : Env) (C : Client E) (user : user_profile) (df : DataFrame)
    (st st1 : app_state E) (u : string) (us : list string)
    (created : playlist) (w3 w4 : World E) (e : exn) :
  playlist_pending st ->
  search_uris E C df [] (initialised st) = (Next (u :: us), st1) ->
  st_button C "+ Create Spotify Playlist" (app_world st1) = true ->
  sp_user_playlist_create C (user_id user) "My Favorite Tracks" false
    "Auto-generated from Spotify Insight Dashboard" (app_world st1) = (Ok created, w3) ->
  sp_playlist_add_items C (pl_id created) (u :: us) w3 = (Raise e, w4) ->
  exists st',
    playlist_builder E C user df st = (Fail e, st') /\
    playlists_created (app_log st') =
      playlists_created (app_log st) ++ [(user_id user, "My Favorite Tracks")] /\
    playlist_pending st'.
Proof.
  intros Hpending Hsearch Hclick Hcreate Hadd.
  destruct (playlist_builder_pressed E C user df st st1 u us Hpending Hsearch Hclick)
    as [Hpend1 [Hlog1 Hrun]].
  rewrite Hrun, Hcreate. cbv zeta. rewrite Hadd.
  eexists. split; [reflexivity | split].
  - cbn [app_log record_action]. rewrite !playlists_created_app, Hlog1. cbn.
    now rewrite !app_nil_r.
  - exact Hpend1.
Qed.

Lemma failed_add_witness :
  exists st',
    playlist_builder Demo.env (DemoApp.client true false) DemoApp.listener
      (Demo.sample_table [60; 35]%Z) (DemoApp.fresh 0) =
      (Fail (Exception "SpotifyException" "http status: 502"), st') /\
    playlists_created (app_log st') = [("listener", "My Favorite Tracks")] /\
    playlist_pending st'.
Proof.
  exact (failed_add_leaves_playlist_unrecorded Demo.env (DemoApp.client true false)
           DemoApp.listener (Demo.sample_table [60; 35]%Z) (DemoApp.fresh 0)
           _ _ _ _ _ _ _ I eq_refl eq_refl eq_refl eq_refl).
Defined.

(** X12. When the searches have found tracks, the button is pressed and both
    requests succeed, the playlist is created private for the user under the
    name My Favorite Tracks, exactly the tracks found are added to it, and
    the session records it with its address; from then on a run of the
    builder, on any table, makes no search and creates nothing. *)
Theorem created_playlist_is_recorded
    (E : Env) (C : Client E) (user : user_profile) (df : DataFrame)
    (st st1 : app_state E) (u : string) (us : list string)
    (created : playlist) (w3 w4 : World E) :
  playlist_pending st ->
  search_uris E C df [] (initialised st) = (Next (u :: us), st1) ->
  st_button C "+ Create Spotify Playlist" (app_world st1) = true ->
  sp_user_playlist_create C (user_id user) "My Favorite Tracks" false
    "Auto-generated from Spotify Insight Dashboard" (app_world st1) = (Ok created, w3) ->
  sp_playlist_add_items C (pl_id created) (u :: us) w3 = (Ok tt, w4) ->
  exists st',
    playlist_builder E C user df st = (Next tt, st') /\
    session st' = Some {| playlist_created := true;
                          playlist_url := Some (pl_spotify_url created) |} /\
    (exists shown,
       app_log st' =
         app_log st1 ++
         [StButton "+ Create Spotify Playlist";
          CallPlaylistCreate (user_id user) "My Favorite Tracks" false
            "Auto-generated from Spotify Insight Dashboard";
          CallPlaylistAddItems (pl_id created) (u :: us)] ++ shown /\
       Forall (fun a => exists src, a = StPlayer src) shown) /\
    (forall df2, exists st2,
       playlist_builder E C user df2 st' = (Next tt, st2) /\
       searches (app_log st2) = searches (app_log st') /\
       playlists_created (app_log st2) = playlists_created (app_log st')).
Proof.
  intros Hpending Hsearch Hclick Hcreate Hadd.
  destruct (playlist_builder_pressed E C user df st st1 u us Hpending Hsearch Hclick)
    as [_ [_ Hrun]].
  rewrite Hrun, Hcreate. cbv zeta. rewrite Hadd. clear Hrun.
  assert (Hrerun : forall st' : app_state E,
            session st' = Some {| playlist_created := true;
                                  playlist_url := Some (pl_spotify_url created) |} ->
            forall df2, exists st2,
              playlist_builder E C user df2 st' = (Next tt, st2) /\
              searches (app_log st2) = searches (app_log st') /\
              playlists_created (app_log st2) = playlists_created (app_log st')).
  { intros st' Hsession df2.
    rewrite (playlist_builder_recorded E C user df2 st' _ Hsession eq_refl).
    eexists. split; [reflexivity |]. cbn [playlist_url].
    destruct (pl_spotify_url created) as [|c rest]; [now split |].
    cbn [app_log record_action].
    rewrite searches_app, playlists_created_app. cbn. now rewrite !app_nil_r. }
  destruct (pl_spotify_url created) as [|c rest] eqn:Hurl.
  - eexists. split; [reflexivity | split; [reflexivity | split]].
    + exists []. cbn. rewrite <- !app_assoc. split; [reflexivity | constructor].
    + apply Hrerun. reflexivity.
  - eexists. split; [reflexivity | split; [reflexivity | split]].
    + exists [StPlayer (embed_url (String c rest) +:+ "?theme=0")].
      cbn [app_log record_action]. rewrite <- !app_assoc.
      split; [reflexivity | repeat constructor]. now eexists.
    + apply Hrerun. reflexivity.
Qed.

Lemma created_playlist_witness :
  exists st',
    playlist_builder Demo.env (DemoApp.client true true) DemoApp.listener
      (Demo.sample_table [60; 35]%Z) (DemoApp.fresh 0) = (Next tt, st') /\
    session st' =
      Some {| playlist_created := true;
              playlist_url := Some "https://open.spotify.com/playlist/pl1" |}.
Proof.
  destruct (created_playlist_is_recorded Demo.env (DemoApp.client true true)
              DemoApp.listener (Demo.sample_table [60; 35]%Z) (DemoApp.fresh 0)
              _ _ _ _ _ _ I eq_refl eq_refl eq_refl eq_refl)
    as [st' [Hrun [Hsession _]]].
  exists st'. split; [exact Hrun | exact Hsession].
Defined.

(** ** The tabs *)

Section Tabs.

Variable E : Env.
Variable C : Client E.

Lemma genre_evolution_cases (data : loaded) (st : app_state E) :
  (df_short data <> [] /\ df_medium data <> [] /\ df_long data <> [] /\
   genre_evolution data st = (Next tt, st))
  \/ ((df_short data = [] \/ df_medium data = [] \/ df_long data = []) /\
      genre_evolution data st = (Fail (KeyError "Genre"), st)).
Proof.
  unfold genre_evolution, and_then, pure_step, column.
  destruct (df_short data) as [|r1 short]; [right; split; [now left | reflexivity] |].
  destruct (df_medium data) as [|r2 medium];
    [right; split; [right; now left | reflexivity] |].
  destruct (df_long data) as [|r3 long];
    [right; split; [right; now right | reflexivity] |].
  left. repeat split; discriminate.
Qed.

Lemma taste_diversity_cases (df : DataFrame) (st : app_state E) :
  (exists text,
     taste_diversity df st =
       (Next tt, record_action E (StMetric "Your Diversity Score" text) (app_world st) st))
  \/ (exists e, taste_diversity df st = (Fail e, st)).
Proof.
  unfold taste_diversity, and_then, pure_step, show.
  destruct (diversity_metric df) as [text|e]; [left; now exists text | right; now exists e].
Qed.

(** How a run of the tabs can end: on an exception, after the overview and
    actions that show no table; or at the last line, after the clustering
    succeeded, with the hidden gems as the last thing shown. *)
Lemma tabs_cases (user : user_profile) (data : loaded) (st st' : app_state E)
    (ctrl : control unit) :
  tabs E C user data st = (ctrl, st') ->
  exists mid,
    tables_shown mid = [] /\
    ((exists e,
        ctrl = Fail e /\
        app_log st' = app_log st ++ StDataframe (map (fun r => (r, None)) (df data)) :: mid)
     \/ (exists table,
           ctrl = Next tt /\
           clustering E (df data) = Ok table /\
           df_short data <> [] /\ df_medium data <> [] /\ df_long data <> [] /\
           app_log st' =
             app_log st ++ StDataframe (map (fun r => (r, None)) (df data)) :: mid ++
             [StDataframe (map (fun x => (fst x, Some (snd x))) (hidden_gems table))])).
Proof.
  unfold tabs, and_then at 1, overview, show.
  set (st_a := record_action E (StDataframe (map (fun r => (r, None)) (df data)))
                 (app_world st) st).
  assert (Hlog_a : app_log st_a =
                   app_log st ++ [StDataframe (map (fun r => (r, None)) (df data))])
    by reflexivity.
  unfold and_then at 1.
  destruct (genre_evolution_cases data st_a) as [[Hs [Hm [Hl Hg]]] | [_ Hg]]; rewrite Hg.
  2:{ intros H. injection H as <- <-. exists []. split; [reflexivity | left].
      exists (KeyError "Genre"). split; [reflexivity |].
      rewrite Hlog_a. reflexivity. }
  unfold and_then at 1.
  destruct (taste_diversity_cases (df data) st_a) as [[text Ht] | [e Ht]]; rewrite Ht.
  2:{ intros H. injection H as <- <-. exists []. split; [reflexivity | left].
      exists e. split; [reflexivity |]. rewrite Hlog_a. reflexivity. }
  set (st_b := record_action E (StMetric "Your Diversity Score" text) (app_world st_a) st_a).
  assert (Hlog_b : app_log st_b = app_log st_a ++ [StMetric "Your Diversity Score" text])
    by reflexivity.
  unfold and_then at 1.
  destruct (playlist_builder E C user (df data) st_b) as [[[]| |e] st_c] eqn:Hbuilder;
    destruct (playlist_builder_log E C user (df data) st_b st_c _ Hbuilder)
      as [new [Hlog_c [Hact Hnohalt]]]; [| now destruct Hnohalt |].
  - unfold and_then, pure_step, hidden_gems_tab, show.
    destruct (clustering E (df data)) as [table|e] eqn:Hcluster; cbn [of_result].
    + intros H. injection H as <- <-.
      exists (StMetric "Your Diversity Score" text :: new). split.
      * cbn. now apply builder_actions_show_no_table.
      * right. exists table. repeat split; try assumption.
        cbn [app_log record_action]. rewrite Hlog_c, Hlog_b, Hlog_a.
        rewrite <- !app_assoc. reflexivity.
    + intros H. injection H as <- <-.
      exists (StMetric "Your Diversity Score" text :: new). split.
      * cbn. now apply builder_actions_show_no_table.
      * left. exists e. split; [reflexivity |].
        rewrite Hlog_c, Hlog_b, Hlog_a. rewrite <- !app_assoc. reflexivity.
  - intros H. injection H as <- <-.
    exists (StMetric "Your Diversity Score" text :: new). split.
    + cbn. now apply builder_actions_show_no_table.
    + left. exists e. split; [reflexivity |].
      rewrite Hlog_c, Hlog_b, Hlog_a. rewrite <- !app_assoc. reflexivity.
Qed.

Lemma clustering_cases (df : DataFrame) :
  kmeans_contract (KMeans_fit E) ->
  scaler_contract (StandardScaler_fit_transform E) ->
  (length df < 3 /\ clustering E df = Raise (n_samples_error (length df) 3))
  \/ (3 <= length df /\
      exists labels,
        clustering E df = Ok (combine df labels) /\
        length labels = length df /\
        Forall (fun l => l = 0%Z \/ l = 1%Z \/ l = 2%Z) labels).
Proof.
  intros Hfit Hscale. unfold clustering.
  set (scaled := StandardScaler_fit_transform E
                   (map (fun r => (Duration_min r, Popularity r)) df)).
  assert (Hsize : length scaled = length df).
  { unfold scaled. now rewrite Hscale, length_map. }
  destruct (Hfit 3 42%Z scaled) as [Hsmall Hbig]; [lia |].
  rewrite Hsize in Hsmall, Hbig.
  destruct (Nat.lt_ge_cases (length df) 3) as [Hlt | Hge].
  - left. split; [exact Hlt | now rewrite (Hsmall Hlt)].
  - right. split; [exact Hge |].
    destruct (Hbig Hge) as [labels [Hrun [Hlen Hrange]]]. rewrite Hrun.
    destruct (set_cluster_rows df labels Hlen) as [Hset _].
    exists labels. split; [exact Hset | split; [exact Hlen |]].
    eapply Forall_impl; [exact Hrange |]. cbn. intros l Hl. lia.
Qed.

End Tabs.

(** X13. When the selected table has rows but one of the three window tables
    is empty (no item, or a failed fetch), reading the Genre column of that
    table for the evolution chart raises KeyError: the run ends there, after
    the overview table, and shows neither the score, nor the playlist
    builder, nor the clusters, nor the hidden gems. *)
Theorem empty_window_breaks_the_charts
    (E : Env) (C : Client E) (time_range : string)
    (st st1 st2 : app_state E) (user : user_profile) (data : loaded) :
  authenticate E C st = (Next user, st1) ->
  run_core (load_data E time_range) st1 = (Next data, st2) ->
  df data <> [] ->
  df_short data = [] \/ df_medium data = [] \/ df_long data = [] ->
  app E C time_range st =
    (Uncaught (KeyError "Genre"),
     record_action E (StDataframe (map (fun r => (r, None)) (df data))) (app_world st2) st2).
Proof.
  intros Hauth Hload Hrows Hempty.
  assert (Hne : df_empty (df data) = false)
    by (destruct (df data); [contradiction | reflexivity]).
  unfold app, and_then. rewrite Hauth, Hload, Hne.
  unfold tabs, and_then at 1, overview, show.
  unfold and_then at 1.
  destruct (genre_evolution_cases E data
              (record_action E (StDataframe (map (fun r => (r, None)) (df data)))
                 (app_world st2) st2))
    as [[Hs [Hm [Hl _]]] | [_ Hg]].
  - destruct Hempty as [H | [H | H]]; contradiction.
  - rewrite Hg. reflexivity.
Qed.

(** In the demo the medium-term window has no item. *)
Lemma empty_window_witness :
  fst (app Demo.env (DemoApp.client true true) "short_term" (DemoApp.fresh 0)) =
  Uncaught (KeyError "Genre").
Proof.
  erewrite (empty_window_breaks_the_charts Demo.env (DemoApp.client true true)
              "short_term" (DemoApp.fresh 0)).
  - reflexivity.
  - reflexivity.
  - reflexivity.
  - discriminate.
  - right. left. reflexivity.
Defined.

(** X14. Given scikit-learn's contract, a selected table of fewer than 3 rows
    never lets the tabs reach their last line: the run ends on an exception
    and the only table shown is the overview; the hidden gems are not
    shown. *)
Theorem small_table_never_shows_hidden_gems
    (E : Env) (C : Client E) (user : user_profile) (data : loaded)
    (st st' : app_state E) (ctrl : control unit) :
  kmeans_contract (KMeans_fit E) ->
  scaler_contract (StandardScaler_fit_transform E) ->
  length (df data) < 3 ->
  tabs E C user data st = (ctrl, st') ->
  (exists e, ctrl = Fail e) /\
  tables_shown (app_log st') =
    tables_shown (app_log st) ++ [map (fun r => (r, None)) (df data)].
Proof.
  intros Hfit Hscale Hsmall Hrun.
  destruct (tabs_cases E C user data st st' ctrl Hrun)
    as [mid [Hmid [[e [-> Hlog]] | [table [_ [Hcluster _]]]]]].
  - split; [now exists e |].
    rewrite Hlog, tables_shown_app. cbn. now rewrite Hmid.
  - destruct (clustering_cases E (df data) Hfit Hscale) as [[_ Hraise] | [Hge _]]; [|lia].
    rewrite Hraise in Hcluster. discriminate Hcluster.
Qed.

Lemma small_table_witness :
  exists e st',
    tabs Demo.env (DemoApp.client true true) DemoApp.listener
      {| df_short := Demo.sample_table [60; 35]%Z;
         df_medium := Demo.sample_table [60; 35]%Z;
         df_long := Demo.sample_table [60; 35]%Z;
         df := Demo.sample_table [60; 35]%Z |} (DemoApp.fresh 0) = (Fail e, st') /\
    tables_shown (app_log st') = [map (fun r => (r, None)) (Demo.sample_table [60; 35]%Z)].
Proof.
  pose (run := tabs Demo.env (DemoApp.client true true) DemoApp.listener
                 {| df_short := Demo.sample_table [60; 35]%Z;
                    df_medium := Demo.sample_table [60; 35]%Z;
                    df_long := Demo.sample_table [60; 35]%Z;
                    df := Demo.sample_table [60; 35]%Z |} (DemoApp.fresh 0)).
  destruct (small_table_never_shows_hidden_gems Demo.env (DemoApp.client true true)
              DemoApp.listener
              {| df_short := Demo.sample_table [60; 35]%Z;
                 df_medium := Demo.sample_table [60; 35]%Z;
                 df_long := Demo.sample_table [60; 35]%Z;
                 df := Demo.sample_table [60; 35]%Z |}
              (DemoApp.fresh 0) (snd run) (fst run)
              demo_fit_contract demo_scale_contract)
    as [[e He] Htables].
  - cbn. lia.
  - reflexivity.
  - exists e, (snd run). split; [|exact Htables].
    rewrite <- He. reflexivity.
Defined.

(** X15. Given scikit-learn's contract, when the tabs reach their last line
    the three window tables were not empty, the selected table has at least 3
    rows, and the last thing shown is the table of hidden gems: the rows of
    the selected table, each with one cluster label among 0, 1 and 2, that
    have popularity below 40, clean lyrics and a known genre. *)
Theorem completed_run_ends_with_hidden_gems
    (E : Env) (C : Client E) (user : user_profile) (data : loaded)
    (st st' : app_state E) :
  kmeans_contract (KMeans_fit E) ->
  scaler_contract (StandardScaler_fit_transform E) ->
  tabs E C user data st = (Next tt, st') ->
  3 <= length (df data) /\
  df_short data <> [] /\ df_medium data <> [] /\ df_long data <> [] /\
  exists labels,
    length labels = length (df data) /\
    Forall (fun l => l = 0%Z \/ l = 1%Z \/ l = 2%Z) labels /\
    last (app_log st') =
      Some (StDataframe (map (fun x => (fst x, Some (snd x)))
                           (hidden_gems (combine (df data) labels)))).
Proof.
  intros Hfit Hscale Hrun.
  destruct (tabs_cases E C user data st st' (Next tt) Hrun)
    as [mid [_ [[e [Hfail _]] | [table [_ [Hcluster [Hs [Hm [Hl Hlog]]]]]]]]];
    [discriminate Hfail |].
  destruct (clustering_cases E (df data) Hfit Hscale)
    as [[_ Hraise] | [Hge [labels [Hok [Hlen Hrange]]]]].
  - rewrite Hraise in Hcluster. discriminate Hcluster.
  - rewrite Hok in Hcluster. injection Hcluster as <-.
    repeat split; try assumption.
    exists labels. repeat split; try assumption.
    rewrite Hlog.
    change (StDataframe (map (fun r => (r, None)) (df data)) :: mid ++
            [StDataframe (map (fun x => (fst x, Some (snd x)))
                            (hidden_gems (combine (df data) labels)))])
      with ((StDataframe (map (fun r => (r, None)) (df data)) :: mid) ++
            [StDataframe (map (fun x => (fst x, Some (snd x)))
                            (hidden_gems (combine (df data) labels)))]).
    rewrite app_assoc. apply last_snoc.
Qed.

Lemma completed_run_witness :
  exists st',
    tabs Demo.env (DemoApp.client false true) DemoApp.listener
      {| df_short := Demo.sample_table [60; 35]%Z;
         df_medium := Demo.sample_table [60]%Z;
         df_long := Demo.sample_table [60; 35; 10]%Z;
         df := Demo.sample_table [60; 35; 10; 80]%Z |} (DemoApp.fresh 0) = (Next tt, st') /\
    exists labels,
      last (app_log st') =
        Some (StDataframe (map (fun x => (fst x, Some (snd x)))
                (hidden_gems (combine (Demo.sample_table [60; 35; 10; 80]%Z) labels)))).
Proof.
  pose (run := tabs Demo.env (DemoApp.client false true) DemoApp.listener
                 {| df_short := Demo.sample_table [60; 35]%Z;
                    df_medium := Demo.sample_table [60]%Z;
                    df_long := Demo.sample_table [60; 35; 10]%Z;
                    df := Demo.sample_table [60; 35; 10; 80]%Z |} (DemoApp.fresh 0)).
  exists (snd run). split; [reflexivity |].
  destruct (completed_run_ends_with_hidden_gems Demo.env (DemoApp.client false true)
              DemoApp.listener
              {| df_short := Demo.sample_table [60; 35]%Z;
                 df_medium := Demo.sample_table [60]%Z;
                 df_long := Demo.sample_table [60; 35; 10]%Z;
                 df := Demo.sample_table [60; 35; 10; 80]%Z |}
              (DemoApp.fresh 0) (snd run) demo_fit_contract demo_scale_contract eq_refl)
    as [_ [_ [_ [_ [labels [_ [_ Hlast]]]]]]].
  now exists labels.
Defined.

(** ** Rows of a fetched table *)

Lemma substring_length (n : nat) (s : string) :
  String.length (String.substring 0 n s) <= n.
Proof.
  revert s. induction n as [|n IH]; intros [|c s]; cbn; try lia.
  specialize (IH s). lia.
Qed.

Lemma enrich_row_well_formed (E : Env) (item : track) (s s' : state E) (r : row) :
  enrich E item s = (Ok r, s') -> well_formed_row E r.
Proof.
  destruct (artists item) as [|first_artist others] eqn:Hartists.
  - intros H. now destruct (enrich_ok_has_artist E _ _ _ _ H).
  - destruct (sp_artist E (artist_id first_artist) (world s)) as [[info|e] w1] eqn:Hinfo.
    + rewrite (enrich_ok E item first_artist others info w1 s Hartists Hinfo).
      intros H. injection H as <- _. unfold well_formed_row. cbn.
      split; [destruct (explicit item); [now left | now right] |].
      split; [apply substring_length | apply country_of_response_range].
    + rewrite (enrich_artist_raises E item first_artist others e w1 s Hartists Hinfo).
      discriminate.
Qed.

Lemma enrich_loop_well_formed
    (E : Env) (items : list track) (rows out : list row) (s s' : state E) :
  Forall (well_formed_row E) rows ->
  enrich_loop E items rows s = (Ok out, s') ->
  Forall (well_formed_row E) out.
Proof.
  revert rows s. induction items as [|item rest IH]; intros rows s Hrows.
  - cbn. intros H. now injection H as <- _.
  - rewrite enrich_loop_cons.
    destruct (enrich E item s) as [[r|e] s1] eqn:Hitem; [|discriminate].
    apply IH. apply Forall_app. split; [exact Hrows |].
    constructor; [exact (enrich_row_well_formed E _ _ _ _ Hitem) | constructor].
Qed.

(** X16. Whatever the platform answers, every row of every table
    [fetch_tracks] returns has Explicit equal to Explicit or Clean, a release
    year of at most 4 characters, and a country that is Unknown or a name of
    the canonical list. *)
Theorem fetched_rows_are_well_formed (E : Env) (time_range : string) (s : state E) :
  exists df s',
    fetch_tracks E time_range s = (Ok df, s') /\ Forall (well_formed_row E) df.
Proof.
  destruct (sp_current_user_top_tracks E 20 time_range (world s)) as [[items|e] w] eqn:Htop.
  - rewrite (fetch_tracks_items E time_range s items w Htop).
    destruct (enrich_loop E items [] (log E (CallTopTracks 20 time_range) w s))
      as [[rows|e] s1] eqn:Hloop.
    + exists rows, s1. split; [reflexivity |].
      refine (enrich_loop_well_formed E _ _ _ _ _ _ Hloop). constructor.
    + eexists. eexists. split; [reflexivity | constructor].
  - rewrite (fetch_tracks_request_raises E time_range s e w Htop).
    eexists. eexists. split; [reflexivity | constructor].
Qed.
